(** * Row-filter nodes of datatable

    A shallow embedding of [datatable/graph/rows_node.py]: the factory
    [make_rowfilter] that classifies a [rows] selector into an [RFNode], and
    the [execute] method that computes the source and the final row index and
    stores them into the evaluation engine.

    Python integers are [Z].  Exceptions are values of [exn] carried by
    [result]; code that mutates the evaluation engine takes the engine and
    returns the engine it leaves behind, also when it raises. *)

From Stdlib Require Import String ZArith List Bool Lia.
Import ListNotations.
Local Open Scope Z_scope.

(* ================================================================== *)
(** ** Python values that reach the module *)

(** A field of a [slice] object: [None], an [int], or anything else. *)
Inductive slice_arg : Type :=
| ANone
| AInt (z : Z)
| AOther.

(** One element of a list / tuple / set / generator selector.  A [bool]
    inside a list is an [int] for [isinstance(elem, int)], so it is an
    [EInt] (1 or 0).  A [range] only ever holds integers. *)
Inductive elem : Type :=
| EInt (z : Z)
| ESlice (start stop step : slice_arg)
| ERange (start stop step : Z)
| EOther.

(** [datatable.types.ltype] and [datatable.types.stype] (declared outside
    this module): the logical and the storage type of a column. *)
Inductive ltype : Type :=
| ltype_bool | ltype_int | ltype_real | ltype_time | ltype_str | ltype_obj.

Inductive stype : Type :=
| bool8 | int8 | int16 | int32 | int64 | float32 | float64 | str32 | str64
| obj64.

Definition ltype_eqb (a b : ltype) : bool :=
  match a, b with
  | ltype_bool, ltype_bool | ltype_int, ltype_int | ltype_real, ltype_real
  | ltype_time, ltype_time | ltype_str, ltype_str | ltype_obj, ltype_obj => true
  | _, _ => false
  end.

Definition stype_is_bool8 (s : stype) : bool :=
  match s with bool8 => true | _ => false end.

(** A column and a Frame, as far as this module looks into them. *)
Record Column : Type := mkColumn {
  col_ltype : ltype;
  col_values : list Z
}.

Record Frame : Type := mkFrame {
  fr_nrows : Z;
  fr_columns : list Column
}.

Definition ncols (fr : Frame) : Z := Z.of_nat (length (fr_columns fr)).
Definition ltypes (fr : Frame) : list ltype := map col_ltype (fr_columns fr).

(** A numpy array: its [shape], [str(arr.dtype)] and its elements in flat
    order (booleans as 1 and 0). *)
Record ndarray : Type := mkArray {
  arr_shape : list Z;
  arr_dtype : string;
  arr_data : list Z
}.

(** [arr.T].  The only arrays transposed here have an axis of length 1, for
    which the flat order of the elements does not change. *)
Definition arr_T (arr : ndarray) : ndarray :=
  mkArray (rev (arr_shape arr)) (arr_dtype arr) (arr_data arr).

Fixpoint list_min (l : list Z) (d : Z) : Z :=
  match l with
  | [] => d
  | x :: l' => Z.min x (list_min l' x)
  end.

(** [min(arr.shape)] of a non-empty shape. *)
Definition shape_min (sh : list Z) : Z :=
  match sh with
  | [] => 0
  | x :: l => list_min (x :: l) x
  end.

(** [arr.shape[-1]]. *)
Definition shape_last (sh : list Z) : Z := last sh 0.

(** [arr.shape[1]]. *)
Definition shape_1 (sh : list Z) : Z := nth 1 sh 0.

Definition dtype_is_bool (arr : ndarray) : bool :=
  String.eqb (arr_dtype arr) "bool".

Definition dtype_is_int (arr : ndarray) : bool :=
  String.prefix "int" (arr_dtype arr).

(** Every [stride]-th element of [l], starting at offset [k]. *)
Fixpoint strided (stride : nat) (k : nat) (l : list Z) : list Z :=
  match l with
  | [] => []
  | x :: l' =>
      match k with
      | O => x :: strided stride (Nat.pred stride) l'
      | S k' => strided stride k' l'
      end
  end.

(** Modelled from the spec: [datatable.Frame(arr)] is not part of this
    module.  The array "is converted into a single-column frame": a
    one-dimensional array of length n gives n rows in one column, an (n, m)
    array gives n rows in m columns; a boolean array gives boolean columns,
    an integer array integer columns. *)
Definition Frame_of_numpy (arr : ndarray) : Frame :=
  let lt := if dtype_is_bool arr then ltype_bool else ltype_int in
  match arr_shape arr with
  | [n] => mkFrame n [mkColumn lt (arr_data arr)]
  | [n; m] =>
      mkFrame n (map (fun j => mkColumn lt (strided (Z.to_nat m) j (arr_data arr)))
                     (seq 0 (Z.to_nat m)))
  | _ => mkFrame 0 []
  end.

(* ================================================================== *)
(** ** Exceptions *)

(** The message of an exception: which format string, and its arguments. *)
Inductive message : Type :=
| MsgBooleanSelector
    (* "Boolean value cannot be used as a `rows` selector" *)
| MsgRowInvalid (e : Z) (nrows : Z)
    (* "Row `%d` is invalid for datatable with %s" *)
| MsgNotIntegerValued (e : elem)
    (* "%r is not integer-valued" *)
| MsgInvalidRange (e : elem) (nrows : Z)
    (* "Invalid %r for a datatable with %s" *)
| MsgInvalidGenerated (e : elem) (i : Z)
    (* "Invalid row selector %r generated at position %d" *)
| MsgInvalidElement (e : elem) (i : Z)
    (* "Invalid row selector %r at element %d of the `rows` list" *)
| MsgNumpyDimensions (arr : ndarray)
    (* "Only a single-dimensional numpy.array is allowed ..." *)
| MsgNumpyDtype (arr : ndarray)
    (* "Either a boolean or an integer numpy.array is expected ..." *)
| MsgBoolArrayLength (len : Z) (nrows : Z)
    (* "Cannot apply a boolean numpy array of length %d to a datatable with %s" *)
| MsgFrameNcols (fr : Frame)
    (* "`rows` argument should be a single-column datatable, got %r" *)
| MsgMaskRows (mask_nrows : Z) (nrows : Z)
    (* "`rows` datatable has %s, but applied to a datatable with %s" *)
| MsgFrameColumnType (t : ltype)
    (* "`rows` datatable should be either a boolean or an integer column ..." *)
| MsgUnexpectedResult
    (* "Unexpected result produced by the `rows` function: %r" *)
| MsgUnexpectedArgument
    (* "Unexpected `rows` argument: %r" *)
| MsgIndexNotAllowed (index : Z) (nrows : Z)
    (* "The data column contains index %d which is not allowed for a Frame
        with %d rows" *)
| MsgOther (text : string).
    (* the message of an exception raised outside this module *)

Inductive exn : Type :=
| TTypeError (m : message)
| TValueError (m : message)
| ValueError (m : message)
| AssertionError
| IndexError
| AttributeError
| TypeError
| NotImplementedError.

Inductive result (A : Type) : Type :=
| Ok (a : A)
| Raise (e : exn).
Arguments Ok {A} a.
Arguments Raise {A} e.

Definition bind {A B : Type} (r : result A) (k : A -> result B) : result B :=
  match r with
  | Ok a => k a
  | Raise e => Raise e
  end.

Notation "x <- c ;; k" := (bind c (fun x => k))
  (at level 61, c at next level, right associativity).

(** [assert cond]. *)
Definition assert (cond : bool) : result unit :=
  if cond then Ok tt else Raise AssertionError.

(** The two kinds of error the module reports.  [TTypeError] derives from
    [TypeError] and [TValueError] from [ValueError]. *)
Definition is_type_error (e : exn) : bool :=
  match e with TTypeError _ => true | _ => false end.

Definition is_value_error (e : exn) : bool :=
  match e with TValueError _ | ValueError _ => true | _ => false end.

(* ================================================================== *)
(** ** The evaluation engine *)

(** What a variable holding "a RowIndex, [None] or [NotImplemented]" holds. *)
Inductive pyri (RI : Type) : Type :=
| PyNone
| PyNotImplemented
| PyRI (r : RI).
Arguments PyNone {RI}.
Arguments PyNotImplemented {RI}.
Arguments PyRI {RI} r.

(** A generated variable name: the prefix asked for and a serial number. *)
Definition varname : Type := (string * nat)%type.

(** The state of the evaluation engine [ee] this module reads and writes,
    together with the row index of the process-wide proxy [f].  A slot is
    [None] until it is written. *)
Record EvaluationEngine (RI : Type) : Type := mkEngine {
  dt_nrows : Z;                                   (* ee.dt.nrows *)
  dt_rowindex : option RI;                        (* ee.dt.internal.rowindex *)
  is_llvm : bool;             (* isinstance(ee, LlvmEvaluationEngine) *)
  rowindex : pyri RI;                             (* ee.rowindex *)
  source_slot : option (pyri RI);                 (* set_source_rowindex *)
  final_slot : option (pyri RI * option RI);      (* set_final_rowindex *)
  var_counter : nat;                              (* make_variable_name *)
  nodes : list varname;                           (* add_node *)
  f_rowindex : option (pyri RI)                   (* f.set_rowindex *)
}.
Arguments mkEngine {RI}.
Arguments dt_nrows {RI}.
Arguments dt_rowindex {RI}.
Arguments is_llvm {RI}.
Arguments rowindex {RI}.
Arguments source_slot {RI}.
Arguments final_slot {RI}.
Arguments var_counter {RI}.
Arguments nodes {RI}.
Arguments f_rowindex {RI}.

(** The sort computation a [SortedRFNode] refers to: the row index of the
    column being sorted, and what [make_rowindex()] gives. *)
Record SortNode (RI : Type) : Type := mkSortNode {
  sort_column_rowindex : option RI;   (* _dt.column(colidx).rowindex *)
  sort_make_rowindex : result RI      (* sort_node.make_rowindex() *)
}.
Arguments mkSortNode {RI}.
Arguments sort_column_rowindex {RI}.
Arguments sort_make_rowindex {RI}.

(** The collaborators of the module: the native library [core], the two
    normalizers of [datatable.utils.misc], the expressions of
    [datatable.expr] and the compiling engine.  None of them is defined in
    this module; the development is parametric in them. *)
Class Core : Type := {
  RowIndex : Type;
  BaseExpr : Type;
  Pointer : Type;
  rowindex_from_slice : Z -> Z -> Z -> RowIndex;
  rowindex_from_array : list Z -> RowIndex;
  rowindex_from_slicelist : list Z -> list Z -> list Z -> RowIndex;
  rowindex_from_column : Column -> RowIndex;
  rowindex_from_filterfn : Pointer -> Z -> RowIndex;
  ri_inverse : RowIndex -> Z -> RowIndex;         (* ri.inverse(n) *)
  ri_uplift : RowIndex -> RowIndex -> RowIndex;   (* ri.uplift(parent) *)
  ri_max : RowIndex -> Z;                         (* ri.max *)
  ri_bool : RowIndex -> bool;                     (* bool(ri) *)
  (* normalize_slice(slice(start, stop, step), n) *)
  normalize_slice : option Z -> option Z -> option Z -> Z -> result (Z * Z * Z);
  (* normalize_range(range(start, stop, step), n); None when invalid *)
  normalize_range : Z -> Z -> Z -> Z -> option (Z * Z * Z);
  expr_stype : BaseExpr -> stype;                 (* expr.stype once resolved *)
  evaluate_eager : BaseExpr -> EvaluationEngine RowIndex -> result Column;
  (* ee.get_result(fnname), fnname being a name or None *)
  get_result : EvaluationEngine RowIndex -> option varname -> result Pointer
}.

Section RowsNode.
Context {core : Core}.

Local Abbreviation EE := (EvaluationEngine RowIndex).

(** Modelled from the spec: the setters of the evaluation context and of the
    proxy [f] belong to other modules.  "set source index; set final index
    given a final index and the prior target index; set/get current index". *)
Definition set_source_rowindex (ee : EE) (ri : pyri RowIndex) : EE :=
  mkEngine (dt_nrows ee) (dt_rowindex ee) (is_llvm ee) (rowindex ee)
           (Some ri) (final_slot ee) (var_counter ee) (nodes ee)
           (f_rowindex ee).

Definition set_final_rowindex (ee : EE) (ri : pyri RowIndex)
    (ri_target : option RowIndex) : EE :=
  mkEngine (dt_nrows ee) (dt_rowindex ee) (is_llvm ee) (rowindex ee)
           (source_slot ee) (Some (ri, ri_target)) (var_counter ee) (nodes ee)
           (f_rowindex ee).

Definition set_rowindex (ee : EE) (ri : pyri RowIndex) : EE :=
  mkEngine (dt_nrows ee) (dt_rowindex ee) (is_llvm ee) ri
           (source_slot ee) (final_slot ee) (var_counter ee) (nodes ee)
           (f_rowindex ee).

Definition f_set_rowindex (ee : EE) (ri : pyri RowIndex) : EE :=
  mkEngine (dt_nrows ee) (dt_rowindex ee) (is_llvm ee) (rowindex ee)
           (source_slot ee) (final_slot ee) (var_counter ee) (nodes ee)
           (Some ri).

(** Modelled from the spec: [ee.make_variable_name(prefix)] "reserves a
    unique generated-function name"; [ee.add_node(node)] "registers a node
    for later code emission" (recorded by the node's function name). *)
Definition make_variable_name (ee : EE) (prefix : string) : varname * EE :=
  ((prefix, var_counter ee),
   mkEngine (dt_nrows ee) (dt_rowindex ee) (is_llvm ee) (rowindex ee)
            (source_slot ee) (final_slot ee) (S (var_counter ee)) (nodes ee)
            (f_rowindex ee)).

Definition add_node (ee : EE) (fnname : varname) : EE :=
  mkEngine (dt_nrows ee) (dt_rowindex ee) (is_llvm ee) (rowindex ee)
           (source_slot ee) (final_slot ee) (var_counter ee)
           (nodes ee ++ [fnname]) (f_rowindex ee).

(** Truth value of [ee.dt.internal.rowindex]: [None] is false, a native
    index is what its [bool()] says. *)
Definition truthy_opt (t : option RowIndex) : bool :=
  match t with
  | None => false
  | Some r => ri_bool r
  end.

Definition pyri_of_option (t : option RowIndex) : pyri RowIndex :=
  match t with
  | None => PyNone
  | Some r => PyRI r
  end.

(* ================================================================== *)
(** ** The nodes *)

Inductive RFKind : Type :=
| All
| Slice (start count step : Z)
| Array (array : list Z)
| MultiSlice (bases counts steps : list Z)
| BooleanColumn (col : Frame)
| IntegerColumn (coldt : Frame)
| FilterExpr (fnname : option varname) (expr : BaseExpr)
| Sorted (sortnode : SortNode RowIndex).

(** An [RFNode]: its [_inverse] flag and the fields of its class.  The
    engine a node refers to is passed to its methods. *)
Record RFNode : Type := mkNode {
  _inverse : bool;
  kind : RFKind
}.

(** [RFNode.negate]. *)
Definition negate (node : RFNode) : RFNode :=
  mkNode (negb (_inverse node)) (kind node).

(** The constructors, with the assertions they make. *)
Definition AllRFNode : RFNode := mkNode false All.

Definition SliceRFNode (start count step : Z) : result RFNode :=
  _ <- assert (0 <=? start) ;;
  _ <- assert (0 <=? count) ;;
  _ <- assert (0 <=? start + (count - 1) * step) ;;
  Ok (mkNode false (Slice start count step)).

Definition ArrayRFNode (array : list Z) : RFNode := mkNode false (Array array).

Definition MultiSliceRFNode (bases counts steps : list Z) : RFNode :=
  mkNode false (MultiSlice bases counts steps).

Definition BooleanColumnRFNode (ee : EE) (col : Frame) : result RFNode :=
  _ <- assert ((fr_nrows col =? dt_nrows ee) && (ncols col =? 1)) ;;
  Ok (mkNode false (BooleanColumn col)).

Definition IntegerColumnRFNode (coldt : Frame) : result RFNode :=
  _ <- assert (ncols coldt =? 1) ;;
  Ok (mkNode false (IntegerColumn coldt)).

Definition FilterExprRFNode (ee : EE) (expr : BaseExpr) : result RFNode * EE :=
  if stype_is_bool8 (expr_stype expr) then
    if is_llvm ee then
      let '(fnname, ee1) := make_variable_name ee "make_rowindex" in
      let node := mkNode false (FilterExpr (Some fnname) expr) in
      (Ok node, add_node ee1 fnname)
    else (Ok (mkNode false (FilterExpr None expr)), ee)
  else (Raise AssertionError, ee).

Definition SortedRFNode (sortnode : SortNode RowIndex) : RFNode :=
  mkNode false (Sorted sortnode).


(* ================================================================== *)
(** ** The factory function: list selectors *)

(** The selector [rows] handed to [make_rowfilter].  A function is given by
    the value its call [rows(f)] returns. *)
Inductive selector : Type :=
| SEllipsis
| SNone
| STrue
| SFalse
| SInt (z : Z)
| SSlice (start stop step : slice_arg)
| SRange (start stop step : Z)
| SGenerator (items : list elem)
| SList (items : list elem)
| STuple (items : list elem)
| SSet (items : list elem)
| SNumpy (arr : ndarray)
| SFrame (fr : Frame)
| SFunction (returns : selector)
| SExpr (expr : BaseExpr)
| SOther.

(** The three accumulators of the loop over the elements. *)
Record accum : Type := mkAccum {
  bases : list Z;
  counts : list Z;
  steps : list Z
}.

Definition empty_accum : accum := mkAccum [] [] [].

Definition len (l : list Z) : nat := length l.

(** [x is None or isinstance(x, int)]. *)
Definition none_or_int (a : slice_arg) : bool :=
  match a with
  | ANone | AInt _ => true
  | AOther => false
  end.

Definition int_field (a : slice_arg) : option Z :=
  match a with
  | AInt z => Some z
  | _ => None
  end.

(** What the loop does with a normalized triple [(start, count, step)]. *)
Definition add_triple (acc : accum) (res : Z * Z * Z) : result accum :=
  let '(start, count, step) := res in
  _ <- assert (0 <=? count) ;;
  if count =? 0 then Ok acc
  else if count =? 1 then
    Ok (mkAccum (bases acc ++ [start]) (counts acc) (steps acc))
  else
    let counts1 :=
      if (len (counts acc) <? len (bases acc))%nat
      then counts acc ++ repeat 1 (len (bases acc) - len (counts acc))%nat
      else counts acc in
    let steps1 :=
      if (len (counts acc) <? len (bases acc))%nat
      then steps acc ++ repeat 1 (len (bases acc) - len (steps acc))%nat
      else steps acc in
    Ok (mkAccum (bases acc ++ [start]) (counts1 ++ [count]) (steps1 ++ [step])).

(** The body of the loop, for the element [e] at position [i]. *)
Definition add_elem (from_generator : bool) (nrows : Z) (i : Z) (e : elem)
    (acc : accum) : result accum :=
  match e with
  | EInt z =>
      if (- nrows <=? z) && (z <? nrows)
      then Ok (mkAccum (bases acc ++ [z mod nrows]) (counts acc) (steps acc))
      else Raise (TValueError (MsgRowInvalid z nrows))
  | ESlice start stop step =>
      if none_or_int start && none_or_int stop && none_or_int step then
        res <- normalize_slice (int_field start) (int_field stop)
                               (int_field step) nrows ;;
        add_triple acc res
      else Raise (TValueError (MsgNotIntegerValued e))
  | ERange start stop step =>
      match normalize_range start stop step nrows with
      | None => Raise (TValueError (MsgInvalidRange e nrows))
      | Some res => add_triple acc res
      end
  | EOther =>
      if from_generator
      then Raise (TValueError (MsgInvalidGenerated e i))
      else Raise (TValueError (MsgInvalidElement e i))
  end.

(** [for i, elem in enumerate(rows)], from position [i] on. *)
Fixpoint scan_rows (from_generator : bool) (nrows : Z) (i : Z)
    (rows : list elem) (acc : accum) : result accum :=
  match rows with
  | [] => Ok acc
  | e :: rest =>
      acc1 <- add_elem from_generator nrows i e acc ;;
      scan_rows from_generator nrows (i + 1) rest acc1
  end.

(** The choice of the node once the loop is over. *)
Definition choose_node (nrows : Z) (acc : accum) : result RFNode :=
  match counts acc with
  | [] =>
      match bases acc with
      | [b0] =>
          if (b0 =? 0) && (nrows =? 1) then Ok AllRFNode
          else SliceRFNode b0 1 1
      | _ => Ok (ArrayRFNode (bases acc))
      end
  | c0 :: _ =>
      match bases acc with
      | [b0] =>
          match steps acc with
          | s0 :: _ =>
              if (b0 =? 0) && (c0 =? nrows) && (s0 =? 1) then Ok AllRFNode
              else SliceRFNode b0 c0 s0
          | [] => Raise IndexError
          end
      | _ => Ok (MultiSliceRFNode (bases acc) (counts acc) (steps acc))
      end
  end.

(** The branch [isinstance(rows, (list, tuple, set))]. *)
Definition rowfilter_of_list (from_generator : bool) (nrows : Z)
    (rows : list elem) : result RFNode :=
  acc <- scan_rows from_generator nrows 0 rows empty_accum ;;
  choose_node nrows acc.

(* ================================================================== *)
(** ** The factory function: arrays, frames, and the dispatch *)

(** The branch [is_type(rows, NumpyArray_t)]: the checks on the array and its
    conversion into a Frame. *)
Definition frame_of_array (nrows : Z) (arr : ndarray) : result Frame :=
  let ndim := length (arr_shape arr) in
  if negb ((ndim =? 1)%nat
           || ((ndim =? 2)%nat && (shape_min (arr_shape arr) =? 1)))
  then Raise (TValueError (MsgNumpyDimensions arr))
  else
    let arr1 :=
      if (ndim =? 2)%nat && (1 <? shape_1 (arr_shape arr))
      then arr_T arr else arr in
    if negb (dtype_is_bool arr1 || dtype_is_int arr1)
    then Raise (TValueError (MsgNumpyDtype arr1))
    else if dtype_is_bool arr1 && negb (shape_last (arr_shape arr1) =? nrows)
    then Raise (TValueError
                  (MsgBoolArrayLength (shape_last (arr_shape arr1)) nrows))
    else
      let rows := Frame_of_numpy arr1 in
      _ <- assert (ncols rows =? 1) ;;
      match ltypes rows with
      | [] => Raise IndexError
      | t0 :: _ =>
          _ <- assert (ltype_eqb t0 ltype_bool || ltype_eqb t0 ltype_int) ;;
          Ok rows
      end.

(** The branch [is_type(rows, Frame_t)]. *)
Definition rowfilter_of_frame (ee : EE) (rows : Frame) : result RFNode :=
  let nrows := dt_nrows ee in
  if negb (ncols rows =? 1)
  then Raise (TValueError (MsgFrameNcols rows))
  else
    match ltypes rows with
    | [] => Raise IndexError
    | col0type :: _ =>
        if ltype_eqb col0type ltype_bool then
          if negb (fr_nrows rows =? nrows)
          then Raise (TValueError (MsgMaskRows (fr_nrows rows) nrows))
          else BooleanColumnRFNode ee rows
        else if ltype_eqb col0type ltype_int then IntegerColumnRFNode rows
        else Raise (TTypeError (MsgFrameColumnType col0type))
    end.

(** [make_rowfilter(rows, ee, _nested)]: the node, or the exception, and the
    engine afterwards. *)
Fixpoint make_rowfilter (rows : selector) (ee : EE) (_nested : bool)
    : result RFNode * EE :=
  let nrows := dt_nrows ee in
  match rows with
  | SEllipsis | SNone => (Ok AllRFNode, ee)
  | STrue | SFalse => (Raise (TTypeError MsgBooleanSelector), ee)
  | SInt z => (rowfilter_of_list false nrows [EInt z], ee)
  | SSlice start stop step =>
      (rowfilter_of_list false nrows [ESlice start stop step], ee)
  | SRange start stop step =>
      (rowfilter_of_list false nrows [ERange start stop step], ee)
  | SGenerator items => (rowfilter_of_list true nrows items, ee)
  | SList items | STuple items | SSet items =>
      (rowfilter_of_list false nrows items, ee)
  | SNumpy arr =>
      (rows1 <- frame_of_array nrows arr ;; rowfilter_of_frame ee rows1, ee)
  | SFrame fr => (rowfilter_of_frame ee fr, ee)
  | SFunction returns => make_rowfilter returns ee true
  | SExpr expr => FilterExprRFNode ee expr
  | SOther =>
      if _nested then (Raise (TTypeError MsgUnexpectedResult), ee)
      else (Raise (TTypeError MsgUnexpectedArgument), ee)
  end.

(* ================================================================== *)
(** ** Source and final row index, and [execute] *)

(** [frame.internal.column(0)]. *)
Definition column0 (fr : Frame) : result Column :=
  match fr_columns fr with
  | c :: _ => Ok c
  | [] => Raise IndexError
  end.

(** [_make_source_rowindex] of each class. *)
Definition _make_source_rowindex (node : RFNode) (ee : EE)
    : result (pyri RowIndex) :=
  match kind node with
  | All => Ok PyNone
  | Slice start count step => Ok (PyRI (rowindex_from_slice start count step))
  | Array array => Ok (PyRI (rowindex_from_array array))
  | MultiSlice bs cs ss => Ok (PyRI (rowindex_from_slicelist bs cs ss))
  | BooleanColumn coldt =>
      col <- column0 coldt ;;
      Ok (PyRI (rowindex_from_column col))
  | IntegerColumn coldt =>
      col <- column0 coldt ;;
      let ri := rowindex_from_column col in
      if dt_nrows ee <=? ri_max ri
      then Raise (ValueError (MsgIndexNotAllowed (ri_max ri) (dt_nrows ee)))
      else Ok (PyRI ri)
  | FilterExpr _ _ => Ok PyNotImplemented
  | Sorted _ => Raise NotImplementedError
  end.

(** [RFNode._make_final_rowindex]: the composition rule of the base class.
    [NotImplemented] has neither [inverse] nor [uplift]. *)
Definition RFNode_make_final_rowindex (node : RFNode) (ee : EE)
    (ri_source : pyri RowIndex) : result (pyri RowIndex) :=
  let ri_target := dt_rowindex ee in
  match ri_source with
  | PyNone =>
      if _inverse node then Ok (PyRI (rowindex_from_slice 0 0 0))
      else Ok (pyri_of_option ri_target)
  | PyNotImplemented =>
      if _inverse node then Raise AttributeError
      else if truthy_opt ri_target then Raise AttributeError
      else Ok PyNotImplemented
  | PyRI s =>
      let ri_final := if _inverse node then ri_inverse s (dt_nrows ee) else s in
      match ri_target with
      | Some t => if ri_bool t then Ok (PyRI (ri_uplift ri_final t))
                  else Ok (PyRI ri_final)
      | None => Ok (PyRI ri_final)
      end
  end.

Definition is_NotImplemented (r : pyri RowIndex) : bool :=
  match r with PyNotImplemented => true | _ => false end.

(** [FilterExprRFNode._make_final_rowindex].  In [if ee.rowindex:] the value
    [NotImplemented] is true, and the native [uplift] does not take it. *)
Definition FilterExpr_make_final_rowindex (node : RFNode)
    (fnname : option varname) (expr : BaseExpr) (ee : EE)
    (ri_source : pyri RowIndex) : result (pyri RowIndex) :=
  _ <- assert (is_NotImplemented ri_source) ;;
  let nrows := dt_nrows ee in
  if is_llvm ee then
    ptr <- get_result ee fnname ;;
    Ok (PyRI (rowindex_from_filterfn ptr nrows))
  else
    col <- evaluate_eager expr ee ;;
    let ri := rowindex_from_column col in
    let ri := if _inverse node then ri_inverse ri nrows else ri in
    match rowindex ee with
    | PyNone => Ok (PyRI ri)
    | PyNotImplemented => Raise TypeError
    | PyRI t => if ri_bool t then Ok (PyRI (ri_uplift ri t)) else Ok (PyRI ri)
    end.

(** [_make_final_rowindex], as the class of the node defines or inherits it. *)
Definition _make_final_rowindex (node : RFNode) (ee : EE)
    (ri_source : pyri RowIndex) : result (pyri RowIndex) :=
  match kind node with
  | FilterExpr fnname expr =>
      FilterExpr_make_final_rowindex node fnname expr ee ri_source
  | _ => RFNode_make_final_rowindex node ee ri_source
  end.

(** The nodes whose final index comes from the rule of the base class. *)
Definition uses_shared_rule (node : RFNode) : bool :=
  match kind node with
  | FilterExpr _ _ | Sorted _ => false
  | _ => true
  end.

(** The writes that end [execute]. *)
Definition store_final (ee : EE) (ri : pyri RowIndex)
    (ri_target : option RowIndex) : EE :=
  let ee2 := set_final_rowindex ee ri ri_target in
  let ee3 := set_rowindex ee2 ri in
  f_set_rowindex ee3 ri.

(** [RFNode.execute], and [SortedRFNode.execute] for a sorted node. *)
Definition execute (node : RFNode) (ee : EE) : result unit * EE :=
  match kind node with
  | Sorted sortnode =>
      let ri_target := sort_column_rowindex sortnode in
      match sort_make_rowindex sortnode with
      | Raise e => (Raise e, ee)
      | Ok finalri =>
          let ee1 := set_source_rowindex ee PyNotImplemented in
          (Ok tt, store_final ee1 (PyRI finalri) ri_target)
      end
  | _ =>
      match _make_source_rowindex node ee with
      | Raise e => (Raise e, ee)
      | Ok srcri =>
          let ee1 := set_source_rowindex ee srcri in
          let ri_target := dt_rowindex ee1 in
          match _make_final_rowindex node ee1 srcri with
          | Raise e => (Raise e, ee1)
          | Ok ri => (Ok tt, store_final ee1 ri ri_target)
          end
      end
  end.

(** A whole selection: classify the selector, then execute the node. *)
Definition select_rows (rows : selector) (ee : EE) : result unit * EE :=
  match make_rowfilter rows ee false with
  | (Raise e, ee1) => (Raise e, ee1)
  | (Ok node, ee1) => execute node ee1
  end.

(* ================================================================== *)
(** ** Vocabulary of the statements *)

(** The triple a slice or a range element is normalized to, when the
    element is integer valued and valid for [nrows] rows. *)
Definition normalized (nrows : Z) (e : elem) : option (Z * Z * Z) :=
  match e with
  | ESlice start stop step =>
      if none_or_int start && none_or_int stop && none_or_int step then
        match normalize_slice (int_field start) (int_field stop)
                              (int_field step) nrows with
        | Ok res => Some res
        | Raise _ => None
        end
      else None
  | ERange start stop step => normalize_range start stop step nrows
  | _ => None
  end.

(** The elements that contribute no row: slices and ranges of count 0. *)
Definition no_rows (nrows : Z) (e : elem) : bool :=
  match normalized nrows e with
  | Some (_, count, _) => count =? 0
  | None => false
  end.

(** The accumulators as the loop keeps them: [counts] and [steps] have the
    same length, which is at most that of [bases]. *)
Definition aligned (acc : accum) : Prop :=
  length (counts acc) = length (steps acc)
  /\ (length (counts acc) <= length (bases acc))%nat.

(** The composition rule as the specification words it, for a source index
    [src], an inversion flag [inv] and an existing index [tgt] (the S, inv
    and T of the specification). *)
Definition composed_index (src : option RowIndex) (inv : bool)
    (tgt : option RowIndex) (nrows : Z) : pyri RowIndex :=
  match src with
  | None =>
      if inv then PyRI (rowindex_from_slice 0 0 0) else pyri_of_option tgt
  | Some s =>
      let s' := if inv then ri_inverse s nrows else s in
      match tgt with
      | Some t => PyRI (ri_uplift s' t)
      | None => PyRI s'
      end
  end.

(** What the loop keeps of [counts]: every entry is at least 1, and a
    non-empty [counts] holds the count of some multi-row slice. *)
Definition counted (acc : accum) : Prop :=
  Forall (fun c => 1 <= c) (counts acc)
  /\ (counts acc = [] \/ Exists (fun c => 1 < c) (counts acc)).

(** [m] is the largest value of [l]. *)
Definition is_max_of (m : Z) (l : list Z) : Prop :=
  In m l /\ forall v, In v l -> v <= m.

End RowsNode.

(* ================================================================== *)
(** ** A reference instance of the collaborators

    The statements below hold for every instance of [Core].  To run the
    module on concrete selectors one instance is fixed here: row indices are
    the terms built from the native calls, and the normalizers follow
    Python's reading of [slice] and [range]. *)

Module Reference.

Inductive ri_term : Type :=
| from_slice (start count step : Z)
| from_array (array : list Z)
| from_slicelist (bases counts steps : list Z)
| from_column (col : Column)
| from_filterfn (ptr : varname) (nrows : Z)
| inverse (ri : ri_term) (n : Z)
| uplift (ri parent : ri_term).

Definition list_max (l : list Z) : Z :=
  match l with
  | [] => 0
  | x :: l' => fold_left Z.max l' x
  end.

(** Modelled from the spec: the native index has a "queryable max position";
    it is computed here for the indices that list their positions. *)
Definition term_max (ri : ri_term) : Z :=
  match ri with
  | from_column col => list_max (col_values col)
  | from_array array => list_max array
  | from_slice start count step =>
      if count <=? 0 then 0 else Z.max start (start + (count - 1) * step)
  | _ => 0
  end.

(** Modelled from the spec: [normalize_slice] of [datatable.utils.misc] is
    not part of this module.  A slice is "normalized to a (start, count,
    step) triple" with "Python-style stop-exclusive semantics": the bounds are
    those of [slice.indices(n)], and a zero step is refused as Python does. *)
Definition py_normalize_slice (start stop step : option Z) (n : Z)
    : result (Z * Z * Z) :=
  let step := match step with Some s => s | None => 1 end in
  if step =? 0 then Raise (ValueError (MsgOther "slice step cannot be zero"))
  else
    let lower := if step <? 0 then -1 else 0 in
    let upper := if step <? 0 then n - 1 else n in
    let clamp v := if v <? 0 then Z.max (v + n) lower else Z.min v upper in
    let start :=
      match start with
      | Some v => clamp v
      | None => if step <? 0 then upper else lower
      end in
    let stop :=
      match stop with
      | Some v => clamp v
      | None => if step <? 0 then lower else upper
      end in
    let count :=
      if 0 <? step
      then (if start <? stop then (stop - start - 1) / step + 1 else 0)
      else (if stop <? start then (start - stop - 1) / (- step) + 1 else 0) in
    Ok ((if count =? 0 then 0 else start), count, step).

(** Modelled from the spec: [normalize_range] is not part of this module.
    A range is normalized to its first position, its length and its step;
    "invalid bounds" are positions outside [0, n). *)
Definition py_normalize_range (start stop step n : Z) : option (Z * Z * Z) :=
  let count :=
    if 0 <? step then Z.max 0 ((stop - start - 1) / step + 1)
    else if step <? 0 then Z.max 0 ((start - stop - 1) / (- step) + 1)
    else 0 in
  if count =? 0 then Some (0, 0, step)
  else
    let finish := start + (count - 1) * step in
    if (0 <=? start) && (start <? n) && (0 <=? finish) && (finish <? n)
    then Some (start, count, step)
    else None.

(** Expressions are given by the column their eager evaluation yields; the
    compiled function of a name is the name itself. *)
Definition core : Core := {|
  RowIndex := ri_term;
  BaseExpr := Column;
  Pointer := varname;
  rowindex_from_slice := from_slice;
  rowindex_from_array := from_array;
  rowindex_from_slicelist := from_slicelist;
  rowindex_from_column := from_column;
  rowindex_from_filterfn := from_filterfn;
  ri_inverse := inverse;
  ri_uplift := uplift;
  ri_max := term_max;
  ri_bool := fun _ => true;
  normalize_slice := py_normalize_slice;
  normalize_range := py_normalize_range;
  expr_stype := fun _ => bool8;
  evaluate_eager := fun col _ => Ok col;
  get_result := fun _ fnname =>
    match fnname with
    | Some name => Ok name
    | None => Raise TypeError
    end
|}.

(** A fresh eager engine over a Frame of [n] rows that is not a view. *)
Definition engine (n : Z) : EvaluationEngine ri_term :=
  mkEngine n None false PyNone None None 0%nat [] None.

(** The same over a view whose row index is [t]. *)
Definition view_engine (n : Z) (t : ri_term) : EvaluationEngine ri_term :=
  mkEngine n (Some t) false (PyRI t) None None 0%nat [] None.

(** A fresh compiling engine. *)
Definition llvm_engine (n : Z) : EvaluationEngine ri_term :=
  mkEngine n None true PyNone None None 0%nat [] None.

End Reference.

(* ================================================================== *)
(** ** Properties of the loop over the elements *)

Section ListSelectors.
Context {core : Core}.

Local Abbreviation EE := (EvaluationEngine RowIndex).

Lemma add_elem_normalized (fg : bool) (nrows i : Z) (e : elem) (acc : accum)
    (res : Z * Z * Z) :
  normalized nrows e = Some res ->
  add_elem fg nrows i e acc = add_triple acc res.
Proof.
  destruct e as [z | a b c | a b c | ]; cbn [normalized add_elem];
    try discriminate.
  - destruct (none_or_int a && none_or_int b && none_or_int c);
      [ | discriminate ].
    destruct (normalize_slice _ _ _ _) as [r | x]; [ | discriminate ].
    intros [= ->]. reflexivity.
  - intros ->. reflexivity.
Qed.

Lemma add_triple_no_rows (acc : accum) (start step : Z) :
  add_triple acc (start, 0, step) = Ok acc.
Proof. reflexivity. Qed.

Lemma add_triple_multirow (acc : accum) (start count step : Z) :
  1 < count ->
  aligned acc ->
  let n1 := (length (bases acc) - length (counts acc))%nat in
  add_triple acc (start, count, step)
  = Ok (mkAccum (bases acc ++ [start])
                (counts acc ++ repeat 1 n1 ++ [count])
                (steps acc ++ repeat 1 n1 ++ [step])).
Proof.
  intros Hc [Hlen Hle] n1. subst n1. unfold add_triple, len.
  replace (0 <=? count) with true by (symmetry; apply Z.leb_le; lia).
  replace (count =? 0) with false by (symmetry; apply Z.eqb_neq; lia).
  replace (count =? 1) with false by (symmetry; apply Z.eqb_neq; lia).
  cbn [assert bind].
  destruct (Nat.ltb_spec (length (counts acc)) (length (bases acc))) as [Hlt | Hge].
  - rewrite <- Hlen, <- !app_assoc. reflexivity.
  - replace (length (bases acc) - length (counts acc))%nat with 0%nat by lia.
    reflexivity.
Qed.

Lemma add_triple_aligned (acc acc1 : accum) (res : Z * Z * Z) :
  aligned acc -> add_triple acc res = Ok acc1 -> aligned acc1.
Proof.
  destruct res as [[start count] step]. intros Hal.
  destruct (Z.lt_ge_cases 1 count) as [Hc | Hc].
  - rewrite (add_triple_multirow acc start count step Hc Hal).
    destruct Hal as [Hlen Hle]. intros [= <-]. unfold aligned. cbn.
    rewrite !length_app, !repeat_length, Hlen. cbn. lia.
  - unfold add_triple.
    destruct (Z.leb_spec 0 count) as [H0 | H0]; cbn [assert bind];
      [ | discriminate ].
    destruct (Z.eqb_spec count 0) as [-> | Hn0]; [ intros [= <-]; exact Hal | ].
    destruct (Z.eqb_spec count 1) as [-> | Hn1]; [ | lia ].
    destruct Hal as [Hlen Hle]. intros [= <-]. unfold aligned. cbn.
    rewrite length_app. cbn. lia.
Qed.

Lemma add_elem_aligned (fg : bool) (nrows i : Z) (e : elem)
    (acc acc1 : accum) :
  aligned acc -> add_elem fg nrows i e acc = Ok acc1 -> aligned acc1.
Proof.
  intros Hal. destruct e as [z | a b c | a b c | ]; cbn [add_elem].
  - destruct ((- nrows <=? z) && (z <? nrows)); [ | discriminate ].
    destruct Hal as [Hlen Hle]. intros [= <-]. unfold aligned. cbn.
    rewrite length_app. cbn. lia.
  - destruct (none_or_int a && none_or_int b && none_or_int c);
      [ | discriminate ].
    destruct (normalize_slice _ _ _ _) as [r | x]; cbn [bind];
      [ | discriminate ].
    apply add_triple_aligned, Hal.
  - destruct (normalize_range _ _ _ _) as [r | ]; [ | discriminate ].
    apply add_triple_aligned, Hal.
  - destruct fg; discriminate.
Qed.

Lemma scan_rows_aligned (fg : bool) (nrows : Z) (rows : list elem) :
  forall (i : Z) (acc acc1 : accum),
    aligned acc -> scan_rows fg nrows i rows acc = Ok acc1 -> aligned acc1.
Proof.
  induction rows as [ | e rest IH]; intros i acc acc1 Hal; cbn [scan_rows].
  - intros [= <-]. exact Hal.
  - destruct (add_elem fg nrows i e acc) as [acc2 | x] eqn:He; cbn [bind];
      [ | discriminate ].
    apply IH. eapply add_elem_aligned; eassumption.
Qed.

Lemma empty_accum_aligned : aligned empty_accum.
Proof. split; cbn; lia. Qed.

Lemma scan_rows_app (fg : bool) (nrows : Z) (l1 l2 : list elem) :
  forall (i : Z) (acc : accum),
    scan_rows fg nrows i (l1 ++ l2) acc
    = (acc1 <- scan_rows fg nrows i l1 acc ;;
       scan_rows fg nrows (i + Z.of_nat (length l1)) l2 acc1).
Proof.
  induction l1 as [ | e rest IH]; intros i acc.
  - cbn. now rewrite Z.add_0_r.
  - cbn [app scan_rows length].
    destruct (add_elem fg nrows i e acc) as [acc2 | x]; cbn [bind];
      [ | reflexivity ].
    rewrite IH.
    replace (i + Z.of_nat (S (length rest))) with (i + 1 + Z.of_nat (length rest))
      by lia.
    reflexivity.
Qed.

Lemma add_elem_no_rows (fg : bool) (nrows i : Z) (e : elem) (acc : accum) :
  no_rows nrows e = true -> add_elem fg nrows i e acc = Ok acc.
Proof.
  unfold no_rows.
  destruct (normalized nrows e) as [[[start count] step] | ] eqn:Hn;
    [ | discriminate ].
  intros Hc. apply Z.eqb_eq in Hc. subst count.
  rewrite (add_elem_normalized fg nrows i e acc _ Hn).
  apply add_triple_no_rows.
Qed.

Lemma scan_rows_no_rows (fg : bool) (nrows : Z) (rows : list elem) :
  forall (i : Z) (acc : accum),
    forallb (no_rows nrows) rows = true ->
    scan_rows fg nrows i rows acc = Ok acc.
Proof.
  induction rows as [ | e rest IH]; intros i acc; cbn [forallb scan_rows].
  - reflexivity.
  - intros H. apply andb_true_iff in H. destruct H as [He Hrest].
    rewrite add_elem_no_rows by exact He. cbn [bind]. now apply IH.
Qed.

Lemma SliceRFNode_ok (start count step : Z) :
  0 <= start -> 0 <= count -> 0 <= start + (count - 1) * step ->
  SliceRFNode start count step = Ok (mkNode false (Slice start count step)).
Proof.
  intros H1 H2 H3. unfold SliceRFNode.
  apply Z.leb_le in H1, H2, H3. rewrite H1, H2, H3. reflexivity.
Qed.

Lemma rowfilter_of_no_rows (fg : bool) (nrows : Z) (items : list elem) :
  forallb (no_rows nrows) items = true ->
  rowfilter_of_list fg nrows items = Ok (ArrayRFNode []).
Proof.
  intros H. unfold rowfilter_of_list.
  rewrite scan_rows_no_rows by exact H. reflexivity.
Qed.

(** C10.  An empty list selector, and more generally any list, tuple, set or
    generator whose elements all contribute zero rows (slices and ranges of
    count 0), is resolved to an Array node that carries the empty list of
    positions; this node is not the All node. *)
Theorem no_rows_selector_is_empty_Array (ee : EE) (nested : bool)
    (items : list elem) :
  forallb (no_rows (dt_nrows ee)) items = true ->
  make_rowfilter (SList items) ee nested = (Ok (mkNode false (Array [])), ee)
  /\ make_rowfilter (STuple items) ee nested
     = (Ok (mkNode false (Array [])), ee)
  /\ make_rowfilter (SSet items) ee nested = (Ok (mkNode false (Array [])), ee)
  /\ make_rowfilter (SGenerator items) ee nested
     = (Ok (mkNode false (Array [])), ee)
  /\ mkNode false (Array []) <> AllRFNode.
Proof.
  intros H. cbn [make_rowfilter].
  rewrite !rowfilter_of_no_rows by exact H.
  repeat split; discriminate.
Qed.

(** C4.  When a multi-row slice element (count > 1) follows the elements
    [items] of a list selector, the loop appends its start, count and step
    after padding [counts] and [steps] with as many 1s as there are bases
    without a count, so that the three accumulators have the same length;
    when some base was accumulated before, the selector is resolved to the
    MultiSlice node that carries these three lists. *)
Theorem multirow_slice_backfills (fg : bool) (nrows : Z) (items : list elem)
    (e : elem) (acc : accum) (start count step : Z) :
  scan_rows fg nrows 0 items empty_accum = Ok acc ->
  normalized nrows e = Some (start, count, step) ->
  1 < count ->
  let n1 := (length (bases acc) - length (counts acc))%nat in
  let acc' := mkAccum (bases acc ++ [start])
                      (counts acc ++ repeat 1 n1 ++ [count])
                      (steps acc ++ repeat 1 n1 ++ [step]) in
  scan_rows fg nrows 0 (items ++ [e]) empty_accum = Ok acc'
  /\ length (counts acc') = length (bases acc')
  /\ length (steps acc') = length (bases acc')
  /\ (bases acc <> [] ->
      rowfilter_of_list fg nrows (items ++ [e])
      = Ok (mkNode false
              (MultiSlice (bases acc') (counts acc') (steps acc')))).
Proof.
  intros Hscan Hnorm Hcount n1 acc'.
  assert (Hal : aligned acc).
  { eapply scan_rows_aligned; [ apply empty_accum_aligned | exact Hscan ]. }
  assert (Hstep : scan_rows fg nrows 0 (items ++ [e]) empty_accum = Ok acc').
  { rewrite scan_rows_app, Hscan. cbn [bind scan_rows].
    rewrite (add_elem_normalized _ _ _ _ _ _ Hnorm).
    rewrite (add_triple_multirow acc start count step Hcount Hal).
    reflexivity. }
  destruct Hal as [Hlen Hle].
  split; [ exact Hstep | ].
  split; [ subst acc' n1; cbn; rewrite !length_app, repeat_length; cbn; lia | ].
  split; [ subst acc' n1; cbn; rewrite !length_app, repeat_length; cbn; lia | ].
  intros Hne. unfold rowfilter_of_list. rewrite Hstep. cbn [bind].
  unfold choose_node. subst acc'. cbn [bases counts steps].
  destruct (bases acc) as [ | b0 rest]; [ congruence | ].
  destruct (counts acc ++ repeat 1 n1 ++ [count]) as [ | c0 crest] eqn:Hc.
  - apply (f_equal (@length Z)) in Hc.
    rewrite !length_app in Hc. cbn in Hc. lia.
  - destruct rest; reflexivity.
Qed.

Lemma single_multirow_slice (fg : bool) (nrows : Z) (pre post : list elem)
    (e : elem) (b c s : Z) :
  forallb (no_rows nrows) pre = true ->
  forallb (no_rows nrows) post = true ->
  normalized nrows e = Some (b, c, s) ->
  1 < c ->
  rowfilter_of_list fg nrows (pre ++ e :: post)
  = if (b =? 0) && (c =? nrows) && (s =? 1) then Ok AllRFNode
    else SliceRFNode b c s.
Proof.
  intros Hpre Hpost Hnorm Hc. unfold rowfilter_of_list.
  rewrite scan_rows_app, scan_rows_no_rows by exact Hpre.
  cbn [bind scan_rows].
  rewrite (add_elem_normalized _ _ _ _ _ _ Hnorm).
  rewrite (add_triple_multirow _ b c s Hc empty_accum_aligned).
  cbn [bind empty_accum bases counts steps length Nat.sub repeat app].
  rewrite scan_rows_no_rows by exact Hpost. reflexivity.
Qed.

Lemma single_base (fg : bool) (nrows : Z) (e : elem) (b s : Z) :
  normalized nrows e = Some (b, 1, s) ->
  rowfilter_of_list fg nrows [e]
  = if (b =? 0) && (nrows =? 1) then Ok AllRFNode else SliceRFNode b 1 1.
Proof.
  intros Hnorm. unfold rowfilter_of_list. cbn [scan_rows].
  rewrite (add_elem_normalized _ _ _ _ _ _ Hnorm). reflexivity.
Qed.

(** C5, as amended.  For every row count nrows > 0 for which the slice
    [slice(0, nrows, 1)] is normalized to the triple (0, nrows, 1), this
    selector is resolved to the All node.  More generally, when the elements
    of a list selector reduce to exactly one multi-row slice entry (every
    other element contributes no row) whose start and last position are not
    negative, the selector is resolved to the All node if that entry is
    (0, nrows, 1), and to the Slice node that carries the start, the count
    and the step of that entry otherwise. *)
Theorem full_slice_collapses_to_All (ee : EE) (nested : bool) :
  (0 < dt_nrows ee ->
   normalize_slice (Some 0) (Some (dt_nrows ee)) (Some 1) (dt_nrows ee)
   = Ok (0, dt_nrows ee, 1) ->
   make_rowfilter (SSlice (AInt 0) (AInt (dt_nrows ee)) (AInt 1)) ee nested
   = (Ok (mkNode false All), ee))
  /\ (forall (pre post : list elem) (e : elem) (b c s : Z),
        forallb (no_rows (dt_nrows ee)) pre = true ->
        forallb (no_rows (dt_nrows ee)) post = true ->
        normalized (dt_nrows ee) e = Some (b, c, s) ->
        1 < c ->
        0 <= b ->
        0 <= b + (c - 1) * s ->
        make_rowfilter (SList (pre ++ e :: post)) ee nested
        = (Ok (mkNode false
                 (if (b =? 0) && (c =? dt_nrows ee) && (s =? 1) then All
                  else Slice b c s)), ee)).
Proof.
  split.
  - intros Hpos Hnorm. cbn [make_rowfilter]. f_equal.
    assert (Hn : normalized (dt_nrows ee)
                   (ESlice (AInt 0) (AInt (dt_nrows ee)) (AInt 1))
                 = Some (0, dt_nrows ee, 1)).
    { cbn. rewrite Hnorm. reflexivity. }
    destruct (Z.eq_dec (dt_nrows ee) 1) as [H1 | H1].
    + rewrite H1 in Hn |- *. rewrite (single_base false 1 _ 0 1 Hn).
      reflexivity.
    + assert (Hc : 1 < dt_nrows ee) by lia.
      pose proof (single_multirow_slice false _ [] [] _ 0 (dt_nrows ee) 1
                    eq_refl eq_refl Hn Hc) as Hone.
      cbn [app] in Hone. rewrite Hone.
      rewrite !Z.eqb_refl. reflexivity.
  - intros pre post e b c s Hpre Hpost Hnorm Hc Hb Hlast.
    cbn [make_rowfilter]. f_equal.
    rewrite (single_multirow_slice false _ pre post e b c s Hpre Hpost Hnorm Hc).
    destruct ((b =? 0) && (c =? dt_nrows ee) && (s =? 1)); [ reflexivity | ].
    apply SliceRFNode_ok; lia.
Qed.

Lemma SliceRFNode_not_All (start count step : Z) :
  SliceRFNode start count step <> Ok AllRFNode.
Proof.
  unfold SliceRFNode.
  destruct (0 <=? start); cbn; [ | discriminate ].
  destruct (0 <=? count); cbn; [ | discriminate ].
  destruct (0 <=? start + (count - 1) * step); cbn; discriminate.
Qed.

(** On a Frame without rows no slice selector is resolved to the All node,
    whatever triple the slice is normalized to. *)
Lemma slice_of_empty_frame_not_All (ee : EE) (nested : bool)
    (a b c : slice_arg) :
  dt_nrows ee = 0 ->
  fst (make_rowfilter (SSlice a b c) ee nested) <> Ok AllRFNode.
Proof.
  intros H0. cbn [make_rowfilter fst]. rewrite H0.
  unfold rowfilter_of_list. cbn [scan_rows add_elem].
  destruct (none_or_int a && none_or_int b && none_or_int c);
    [ | discriminate ].
  destruct (normalize_slice _ _ _ _) as [[[start count] step] | x];
    cbn [bind]; [ | discriminate ].
  unfold add_triple.
  destruct (Z.leb_spec 0 count) as [Hc | Hc]; cbn [assert bind];
    [ | discriminate ].
  destruct (Z.eqb_spec count 0) as [-> | Hn0]; [ cbn; discriminate | ].
  destruct (Z.eqb_spec count 1) as [-> | Hn1];
    cbn [bind empty_accum bases counts steps app len length Nat.ltb Nat.leb
         choose_node].
  - rewrite andb_false_r. apply SliceRFNode_not_All.
  - replace (count =? 0) with false by (symmetry; now apply Z.eqb_neq).
    rewrite andb_false_r. cbn [andb]. apply SliceRFNode_not_All.
Qed.

(** C3, as amended.  For every row count nrows > 0 and every integer e with
    -nrows <= e < nrows, the selector [[e]] is resolved to the unit-count
    Slice node starting at e mod nrows (count 1, step 1) when nrows > 1, and
    to the All node when nrows = 1. *)
Theorem single_integer_selector (ee : EE) (nested : bool) (e : Z) :
  0 < dt_nrows ee ->
  - dt_nrows ee <= e < dt_nrows ee ->
  (1 < dt_nrows ee ->
   make_rowfilter (SList [EInt e]) ee nested
   = (Ok (mkNode false (Slice (e mod dt_nrows ee) 1 1)), ee))
  /\ (dt_nrows ee = 1 ->
      make_rowfilter (SList [EInt e]) ee nested = (Ok AllRFNode, ee)).
Proof.
  intros Hpos Hrange.
  assert (Hmod : 0 <= e mod dt_nrows ee < dt_nrows ee)
    by (apply Z.mod_pos_bound; lia).
  assert (Hin : (- dt_nrows ee <=? e) && (e <? dt_nrows ee) = true).
  { apply andb_true_iff. split; [ apply Z.leb_le | apply Z.ltb_lt ]; lia. }
  split; intros Hn; cbn [make_rowfilter]; f_equal;
    unfold rowfilter_of_list; cbn [scan_rows add_elem]; rewrite Hin;
    cbn [bind empty_accum bases counts steps app choose_node].
  - replace (dt_nrows ee =? 1) with false by (symmetry; apply Z.eqb_neq; lia).
    rewrite andb_false_r. apply SliceRFNode_ok; lia.
  - rewrite Hn, Z.mod_1_r. reflexivity.
Qed.

End ListSelectors.

(* ================================================================== *)
(** ** Properties of the dispatch and of [execute] *)

Section Execution.
Context {core : Core}.

Local Abbreviation EE := (EvaluationEngine RowIndex).

Lemma shared_rule_is_inherited (node : RFNode) (ee : EE)
    (ri_source : pyri RowIndex) :
  uses_shared_rule node = true ->
  _make_final_rowindex node ee ri_source
  = RFNode_make_final_rowindex node ee ri_source.
Proof.
  unfold uses_shared_rule, _make_final_rowindex.
  destruct (kind node); intros H; try reflexivity; discriminate.
Qed.

Lemma shared_rule_source (node : RFNode) (ee : EE) (r : pyri RowIndex) :
  uses_shared_rule node = true ->
  _make_source_rowindex node ee = Ok r ->
  exists src : option RowIndex, r = pyri_of_option src.
Proof.
  unfold uses_shared_rule, _make_source_rowindex.
  destruct (kind node) as [ | a b c | a | a b c | fr | fr | fn ex | sn ];
    intros Hk; try discriminate.
  - intros [= <-]. now exists None.
  - intros [= <-]. now eexists (Some _).
  - intros [= <-]. now eexists (Some _).
  - intros [= <-]. now eexists (Some _).
  - destruct (column0 fr); cbn [bind]; [ | discriminate ].
    intros [= <-]. now eexists (Some _).
  - destruct (column0 fr); cbn [bind]; [ | discriminate ].
    destruct (dt_nrows ee <=? _); [ discriminate | ].
    intros [= <-]. now eexists (Some _).
Qed.

(** C1.  For every node whose class uses the composition rule of the base
    class, with source index [src], inversion flag [_inverse node] and the
    existing index [dt_rowindex ee] of the Frame (a native index object being
    true in a boolean context): if the source index is absent, the final
    index is the existing index when the flag is unset and the zero-count
    slice index when it is set; otherwise it is the source index, inverted
    over the row count when the flag is set, and then uplifted to the
    existing index when there is one.  [execute] stores exactly this index
    for the source index the node computes. *)
Theorem shared_composition_rule (node : RFNode) (ee : EE)
    (src : option RowIndex) :
  uses_shared_rule node = true ->
  (forall t, dt_rowindex ee = Some t -> ri_bool t = true) ->
  _make_final_rowindex node ee (pyri_of_option src)
  = Ok (composed_index src (_inverse node) (dt_rowindex ee) (dt_nrows ee))
  /\ (_make_source_rowindex node ee = Ok (pyri_of_option src) ->
      execute node ee
      = (Ok tt,
         store_final (set_source_rowindex ee (pyri_of_option src))
           (composed_index src (_inverse node) (dt_rowindex ee) (dt_nrows ee))
           (dt_rowindex ee))).
Proof.
  intros Hk Htrue.
  assert (Hrule : forall ee1 : EE,
             dt_rowindex ee1 = dt_rowindex ee -> dt_nrows ee1 = dt_nrows ee ->
             _make_final_rowindex node ee1 (pyri_of_option src)
             = Ok (composed_index src (_inverse node) (dt_rowindex ee)
                     (dt_nrows ee))).
  { intros ee1 Hri Hn. rewrite shared_rule_is_inherited by exact Hk.
    unfold RFNode_make_final_rowindex, composed_index. rewrite Hri, Hn.
    destruct src as [s | ]; cbn [pyri_of_option].
    - destruct (dt_rowindex ee) as [t | ] eqn:Ht; [ | reflexivity ].
      now rewrite (Htrue t eq_refl).
    - destruct (_inverse node); reflexivity. }
  split; [ now apply Hrule | ].
  intros Hsrc. unfold execute.
  assert (Hns : match kind node with Sorted _ => False | _ => True end).
  { unfold uses_shared_rule in Hk. destruct (kind node); (exact I || discriminate). }
  destruct (kind node) eqn:Hkind; try contradiction;
    rewrite Hsrc, Hrule by reflexivity; reflexivity.
Qed.

(** C9.  For a FilterExpr node under a compiling engine the final index is
    built from the function pointer the engine returns for the name of the
    node and from the row count alone: the value of the inversion flag makes
    no difference and no existing index is applied.  Under an eager engine
    the index derived from the evaluated column is inverted when the flag is
    set and then uplifted to the current index of the engine when there is
    one. *)
Theorem filter_expr_final_rowindex (inv : bool) (fnname : option varname)
    (expr : BaseExpr) (ee : EE) :
  (is_llvm ee = true ->
   forall ptr : Pointer,
     get_result ee fnname = Ok ptr ->
     _make_final_rowindex (mkNode inv (FilterExpr fnname expr)) ee
       PyNotImplemented
     = Ok (PyRI (rowindex_from_filterfn ptr (dt_nrows ee)))
     /\ _make_final_rowindex (negate (mkNode inv (FilterExpr fnname expr))) ee
          PyNotImplemented
        = Ok (PyRI (rowindex_from_filterfn ptr (dt_nrows ee))))
  /\ (is_llvm ee = false ->
      forall (col : Column) (tgt : option RowIndex),
        evaluate_eager expr ee = Ok col ->
        rowindex ee = pyri_of_option tgt ->
        (forall t, tgt = Some t -> ri_bool t = true) ->
        _make_final_rowindex (mkNode inv (FilterExpr fnname expr)) ee
          PyNotImplemented
        = Ok (composed_index (Some (rowindex_from_column col)) inv tgt
                (dt_nrows ee))).
Proof.
  split.
  - intros Hllvm ptr Hptr.
    cbn [_make_final_rowindex negate kind FilterExpr_make_final_rowindex
         is_NotImplemented assert bind].
    rewrite Hllvm, Hptr. split; reflexivity.
  - intros Heager col tgt Hcol Htgt Htrue.
    cbn [_make_final_rowindex kind FilterExpr_make_final_rowindex
         is_NotImplemented assert bind _inverse].
    rewrite Heager, Hcol, Htgt. cbn [bind composed_index].
    destruct tgt as [t | ]; cbn [pyri_of_option]; [ | reflexivity ].
    now rewrite (Htrue t eq_refl).
Qed.

(** C6.  For a Frame [coldt] of one integer column whose native index
    reports the largest value of the column as its [max]: the classifier
    returns the IntegerColumn node without any check; the node fails when it
    computes its source index if and only if some value of the column is at
    least the row count; and the exception is then a [ValueError] whose
    message carries the offending value (the maximum, a value of the column
    that is at least the row count) and the row count, raised by [execute]
    before the engine is written. *)
Theorem integer_column_bounds (ee : EE) (nested inv : bool) (coldt : Frame)
    (col : Column) :
  fr_columns coldt = [col] ->
  col_ltype col = ltype_int ->
  is_max_of (ri_max (rowindex_from_column col)) (col_values col) ->
  make_rowfilter (SFrame coldt) ee nested
  = (Ok (mkNode false (IntegerColumn coldt)), ee)
  /\ ((exists v, In v (col_values col) /\ dt_nrows ee <= v) <->
      (exists e,
         _make_source_rowindex (mkNode inv (IntegerColumn coldt)) ee = Raise e))
  /\ (forall e,
        _make_source_rowindex (mkNode inv (IntegerColumn coldt)) ee = Raise e ->
        e = ValueError (MsgIndexNotAllowed (ri_max (rowindex_from_column col))
                          (dt_nrows ee))
        /\ is_value_error e = true
        /\ In (ri_max (rowindex_from_column col)) (col_values col)
        /\ dt_nrows ee <= ri_max (rowindex_from_column col)
        /\ execute (mkNode inv (IntegerColumn coldt)) ee = (Raise e, ee)).
Proof.
  intros Hcols Htype [Hin Hmax].
  assert (Hsrc : _make_source_rowindex (mkNode inv (IntegerColumn coldt)) ee
                 = if dt_nrows ee <=? ri_max (rowindex_from_column col)
                   then Raise (ValueError
                                 (MsgIndexNotAllowed
                                    (ri_max (rowindex_from_column col))
                                    (dt_nrows ee)))
                   else Ok (PyRI (rowindex_from_column col))).
  { cbn [_make_source_rowindex kind]. unfold column0. rewrite Hcols.
    reflexivity. }
  split; [ | split ].
  - cbn [make_rowfilter]. f_equal. unfold rowfilter_of_frame, ncols, ltypes.
    rewrite Hcols. cbn [length map Z.of_nat]. rewrite Htype.
    cbn. unfold IntegerColumnRFNode, ncols. rewrite Hcols. reflexivity.
  - rewrite Hsrc. split.
    + intros [v [Hv Hge]]. specialize (Hmax v Hv).
      replace (dt_nrows ee <=? _) with true by (symmetry; apply Z.leb_le; lia).
      eexists. reflexivity.
    + intros [e He].
      destruct (Z.leb_spec (dt_nrows ee) (ri_max (rowindex_from_column col)))
        as [Hle | Hlt]; [ | discriminate ].
      exists (ri_max (rowindex_from_column col)). now split.
  - intros e He. unfold execute. cbn [kind]. rewrite He.
    rewrite Hsrc in He.
    destruct (Z.leb_spec (dt_nrows ee) (ri_max (rowindex_from_column col)))
      as [Hle | Hlt]; [ | discriminate ].
    injection He as <-. repeat split; assumption.
Qed.

Lemma boolean_frame_mask (ee : EE) (nested : bool) (fr : Frame)
    (col : Column) :
  fr_columns fr = [col] ->
  col_ltype col = ltype_bool ->
  make_rowfilter (SFrame fr) ee nested
  = (if fr_nrows fr =? dt_nrows ee
     then Ok (mkNode false (BooleanColumn fr))
     else Raise (TValueError (MsgMaskRows (fr_nrows fr) (dt_nrows ee))), ee).
Proof.
  intros Hcols Htype. cbn [make_rowfilter]. f_equal.
  unfold rowfilter_of_frame, ncols, ltypes. rewrite Hcols.
  cbn [length map Z.of_nat]. rewrite Htype. cbn.
  destruct (Z.eqb_spec (fr_nrows fr) (dt_nrows ee)) as [Heq | Hne];
    [ | reflexivity ].
  cbn. unfold BooleanColumnRFNode, ncols. rewrite Hcols, Heq, Z.eqb_refl.
  reflexivity.
Qed.

Lemma boolean_flat_array (ee : EE) (nested : bool) (n : Z) (data : list Z) :
  make_rowfilter (SNumpy (mkArray [n] "bool" data)) ee nested
  = (if n =? dt_nrows ee
     then Ok (mkNode false
                (BooleanColumn (mkFrame n [mkColumn ltype_bool data])))
     else Raise (TValueError (MsgBoolArrayLength n (dt_nrows ee))), ee).
Proof.
  cbn [make_rowfilter]. f_equal. unfold frame_of_array. cbn.
  destruct (Z.eqb_spec n (dt_nrows ee)) as [Heq | Hne]; [ | reflexivity ].
  cbn. unfold rowfilter_of_frame. cbn.
  rewrite Heq, Z.eqb_refl. cbn.
  unfold BooleanColumnRFNode. cbn. rewrite Z.eqb_refl. reflexivity.
Qed.

(** C7, where the code departs from it.  A boolean numpy array with two
    dimensions, one of them of length 1, holds a mask of n values; on a
    Frame of n > 1 rows the classifier raises the value error about the
    length of the array all the same, and the length its message cites is 1,
    the last dimension left by the transposition. *)
Theorem boolean_2d_array_rejected (ee : EE) (nested : bool) (n : Z)
    (data : list Z) :
  1 < n ->
  dt_nrows ee = n ->
  make_rowfilter (SNumpy (mkArray [n; 1] "bool" data)) ee nested
  = (Raise (TValueError (MsgBoolArrayLength 1 n)), ee)
  /\ make_rowfilter (SNumpy (mkArray [1; n] "bool" data)) ee nested
     = (Raise (TValueError (MsgBoolArrayLength 1 n)), ee).
Proof.
  intros Hn Hrows.
  assert (Hmin1 : Z.min n (Z.min 1 1) = 1) by lia.
  assert (Hmin2 : Z.min 1 (Z.min n n) = 1) by lia.
  assert (Hne : (1 =? n) = false) by (apply Z.eqb_neq; lia).
  assert (Hlt : (1 <? n) = true) by (apply Z.ltb_lt; lia).
  split; cbn [make_rowfilter]; f_equal; rewrite Hrows; unfold frame_of_array;
    cbn -[Z.eqb Z.ltb Z.min]; rewrite ?Hmin1, ?Hmin2, ?Hlt;
    change (1 =? 1) with true; change (1 <? 1) with false;
    cbn -[Z.eqb Z.ltb Z.min]; rewrite Hne; reflexivity.
Qed.

(** [True] and [False] are refused with a type error, whatever the Frame. *)
Lemma boolean_literal_rejected (ee : EE) (nested : bool) :
  exists e,
    make_rowfilter STrue ee nested = (Raise e, ee)
    /\ make_rowfilter SFalse ee nested = (Raise e, ee)
    /\ is_type_error e = true.
Proof. eexists. repeat split. Qed.

Lemma nested_flag_on_success (rows : selector) (ee ee1 : EE) (node : RFNode) :
  make_rowfilter rows ee false = (Ok node, ee1) ->
  make_rowfilter rows ee true = (Ok node, ee1).
Proof.
  destruct rows; cbn [make_rowfilter]; try (intros H; exact H).
  discriminate.
Qed.

(** A function selector is resolved to the node its returned value is
    resolved to. *)
Lemma callable_resolves_to_returned (rows : selector) (ee ee1 : EE)
    (node : RFNode) :
  make_rowfilter rows ee false = (Ok node, ee1) ->
  make_rowfilter (SFunction rows) ee false = (Ok node, ee1).
Proof. intros H. cbn [make_rowfilter]. now apply nested_flag_on_success. Qed.

(** C2, where the code departs from it.  A function that returns a function
    is resolved like the value the inner function returns: the factory calls
    itself again although [_nested] is set, so that no type error is raised;
    for instance a function returning a function that returns [None] is
    resolved to the All node. *)
Theorem nested_callable_is_resolved (ee : EE) (nested : bool)
    (rows : selector) :
  make_rowfilter (SFunction (SFunction rows)) ee nested
  = make_rowfilter rows ee true
  /\ make_rowfilter (SFunction (SFunction SNone)) ee false = (Ok AllRFNode, ee).
Proof. split; reflexivity. Qed.

Lemma FilterExprRFNode_final_slot (ee : EE) (expr : BaseExpr) :
  final_slot (snd (FilterExprRFNode ee expr)) = final_slot ee.
Proof.
  unfold FilterExprRFNode.
  destruct (stype_is_bool8 (expr_stype expr)); [ | reflexivity ].
  destruct (is_llvm ee); reflexivity.
Qed.

Lemma make_rowfilter_final_slot (rows : selector) :
  forall (ee : EE) (nested : bool),
    final_slot (snd (make_rowfilter rows ee nested)) = final_slot ee.
Proof.
  induction rows; intros ee nested; cbn [make_rowfilter snd];
    try reflexivity.
  - apply IHrows.
  - apply FilterExprRFNode_final_slot.
  - destruct nested; reflexivity.
Qed.

Lemma execute_error_final_slot (node : RFNode) (ee ee1 : EE) (e : exn) :
  execute node ee = (Raise e, ee1) -> final_slot ee1 = final_slot ee.
Proof.
  unfold execute.
  assert (Hgen :
    match _make_source_rowindex node ee with
    | Ok srcri =>
        match _make_final_rowindex node (set_source_rowindex ee srcri) srcri with
        | Ok ri =>
            (Ok tt, store_final (set_source_rowindex ee srcri) ri
                      (dt_rowindex (set_source_rowindex ee srcri)))
        | Raise e0 => (Raise e0, set_source_rowindex ee srcri)
        end
    | Raise e0 => (Raise e0, ee)
    end = (Raise e, ee1) -> final_slot ee1 = final_slot ee).
  { destruct (_make_source_rowindex node ee) as [srcri | e0].
    - destruct (_make_final_rowindex node _ srcri) as [ri | e1].
      + discriminate.
      + intros [= _ <-]. reflexivity.
    - intros [= _ <-]. reflexivity. }
  destruct (kind node); try exact Hgen.
  destruct (sort_make_rowindex sortnode) as [ri | e0].
  - discriminate.
  - intros [= _ <-]. reflexivity.
Qed.

(** C8.  When the classification of a selector raises, when the execution of
    a node raises, or when a whole selection (classification, then
    execution) raises, the final-index slot of the engine left behind is the
    one the engine had before: no exception is raised once the final index
    is written. *)
Theorem error_leaves_final_slot (ee ee1 : EE) (e : exn) :
  (forall (rows : selector) (nested : bool),
     make_rowfilter rows ee nested = (Raise e, ee1) ->
     final_slot ee1 = final_slot ee)
  /\ (forall node : RFNode,
        execute node ee = (Raise e, ee1) -> final_slot ee1 = final_slot ee)
  /\ (forall rows : selector,
        select_rows rows ee = (Raise e, ee1) -> final_slot ee1 = final_slot ee).
Proof.
  split; [ | split ].
  - intros rows nested H.
    pose proof (make_rowfilter_final_slot rows ee nested) as Hs.
    rewrite H in Hs. exact Hs.
  - intros node. apply execute_error_final_slot.
  - intros rows. unfold select_rows.
    pose proof (make_rowfilter_final_slot rows ee false) as Hs.
    destruct (make_rowfilter rows ee false) as [[node | e0] ee2];
      cbn [snd] in Hs.
    + intros H. apply execute_error_final_slot in H. congruence.
    + intros [= _ <-]. exact Hs.
Qed.

End Execution.

(* ================================================================== *)
(** ** The statements on concrete selectors

    The scenarios below run the module with the reference collaborators. *)

Section Scenarios.
Import Reference.

Local Abbreviation resolve := (make_rowfilter (core := Reference.core)).
Local Abbreviation filter_node inv fnname expr :=
  (@mkNode Reference.core inv (@FilterExpr Reference.core fnname expr)).
Local Abbreviation mask := (mkColumn ltype_bool [1; 0; 1]).
Local Abbreviation compiled_name := ("make_rowindex"%string, 0%nat).

(** [[-1]] on 10 rows: the Slice node (9, 1, 1). *)
Lemma single_integer_selector_witness :
  resolve (SList [EInt (-1)]) (engine 10) false
  = (Ok (mkNode false (Slice 9 1 1)), engine 10).
Proof.
  apply (proj1 (single_integer_selector (core := Reference.core)
                  (engine 10) false (-1)
                  ltac:(cbn; lia) ltac:(cbn; lia))).
  cbn; lia.
Defined.

(** [[0]] on 1 row: the premises hold, and the node is All, not the
    Slice node (0 mod 1, 1, 1). *)
Lemma single_integer_selector_counterexample :
  0 < dt_nrows (engine 1)
  /\ - dt_nrows (engine 1) <= 0 < dt_nrows (engine 1)
  /\ resolve (SList [EInt 0]) (engine 1) false = (Ok AllRFNode, engine 1)
  /\ fst (resolve (SList [EInt 0]) (engine 1) false)
     <> Ok (mkNode false (Slice (0 mod dt_nrows (engine 1)) 1 1)).
Proof.
  split; [ cbn; lia | ]. split; [ cbn; lia | ].
  split; [ reflexivity | ]. cbn. discriminate.
Qed.

(** [[0, 1, 2, 5, slice(7, 10, 1)]] on 10 rows. *)
Lemma multirow_slice_backfills_witness :
  resolve (SList [EInt 0; EInt 1; EInt 2; EInt 5;
                  ESlice (AInt 7) (AInt 10) (AInt 1)])
    (engine 10) false
  = (Ok (mkNode false
           (MultiSlice [0; 1; 2; 5; 7] [1; 1; 1; 1; 3] [1; 1; 1; 1; 1])),
     engine 10).
Proof.
  change (resolve (SList [EInt 0; EInt 1; EInt 2; EInt 5;
                          ESlice (AInt 7) (AInt 10) (AInt 1)])
            (engine 10) false)
    with (rowfilter_of_list (core := Reference.core) false 10
            ([EInt 0; EInt 1; EInt 2; EInt 5]
             ++ [ESlice (AInt 7) (AInt 10) (AInt 1)]),
          engine 10).
  apply (f_equal (fun r => (r, engine 10))).
  apply (proj2 (proj2 (proj2
           (multirow_slice_backfills (core := Reference.core) false 10
              [EInt 0; EInt 1; EInt 2; EInt 5]
              (ESlice (AInt 7) (AInt 10) (AInt 1))
              (mkAccum [0; 1; 2; 5] [] []) 7 3 1
              eq_refl eq_refl ltac:(lia))))).
  discriminate.
Defined.

(** [slice(0, 10, 1)] on 10 rows is All; [[slice(0, 0, 1), slice(2, 8, 2)]]
    is the Slice node (2, 3, 2). *)
Lemma full_slice_collapses_to_All_witness :
  resolve (SSlice (AInt 0) (AInt 10) (AInt 1)) (engine 10) false
  = (Ok (mkNode false All), engine 10)
  /\ resolve (SList ([ESlice (AInt 0) (AInt 0) (AInt 1)]
                     ++ ESlice (AInt 2) (AInt 8) (AInt 2) :: []))
       (engine 10) false
     = (Ok (mkNode false (Slice 2 3 2)), engine 10).
Proof.
  split.
  - apply (proj1 (full_slice_collapses_to_All (core := Reference.core)
                    (engine 10) false)).
    + cbn; lia.
    + reflexivity.
  - apply (proj2 (full_slice_collapses_to_All (core := Reference.core)
                    (engine 10) false)
             [ESlice (AInt 0) (AInt 0) (AInt 1)] []
             (ESlice (AInt 2) (AInt 8) (AInt 2)) 2 3 2).
    + reflexivity.
    + reflexivity.
    + reflexivity.
    + lia.
    + lia.
    + lia.
Defined.

(** [slice(0, nrows, 1)] on a Frame of nrows = 0 rows: the slice is
    normalized to a zero count, and the node is the empty Array, not All. *)
Lemma full_slice_collapses_to_All_counterexample :
  py_normalize_slice (Some 0) (Some (dt_nrows (engine 0))) (Some 1)
    (dt_nrows (engine 0)) = Ok (0, 0, 1)
  /\ resolve (SSlice (AInt 0) (AInt (dt_nrows (engine 0))) (AInt 1))
       (engine 0) false
     = (Ok (mkNode false (Array [])), engine 0)
  /\ fst (resolve (SSlice (AInt 0) (AInt (dt_nrows (engine 0))) (AInt 1))
            (engine 0) false)
     <> Ok AllRFNode.
Proof.
  split; [ reflexivity | ]. split; [ reflexivity | ].
  apply slice_of_empty_frame_not_All. reflexivity.
Qed.

(** [[slice(0, 0, 1)]] on 10 rows: the empty Array. *)
Lemma no_rows_selector_is_empty_Array_witness :
  resolve (SList [ESlice (AInt 0) (AInt 0) (AInt 1)]) (engine 10) false
  = (Ok (mkNode false (Array [])), engine 10).
Proof.
  apply (proj1 (no_rows_selector_is_empty_Array (core := Reference.core)
                  (engine 10) false [ESlice (AInt 0) (AInt 0) (AInt 1)]
                  eq_refl)).
Defined.

(** A negated Slice node (2, 3, 2) on a view of 10 rows whose index is the
    slice (5, 10, 1): the inverse is taken first, then the uplift. *)
Lemma shared_composition_rule_witness :
  _make_final_rowindex (core := Reference.core)
    (negate (mkNode false (Slice 2 3 2)))
    (view_engine 10 (from_slice 5 10 1)) (PyRI (from_slice 2 3 2))
  = Ok (PyRI (uplift (inverse (from_slice 2 3 2) 10) (from_slice 5 10 1))).
Proof.
  apply (proj1 (shared_composition_rule (core := Reference.core)
                  (negate (mkNode false (Slice 2 3 2)))
                  (view_engine 10 (from_slice 5 10 1))
                  (Some (from_slice 2 3 2))
                  eq_refl (fun _ _ => eq_refl))).
Defined.

(** A negated FilterExpr node: under the compiling engine the index is built
    from the pointer and the row count; under the eager engine of a view it
    is inverted and uplifted. *)
Lemma filter_expr_final_rowindex_witness :
  _make_final_rowindex (negate (filter_node false (Some compiled_name) mask))
    (llvm_engine 3) PyNotImplemented
  = Ok (PyRI (from_filterfn compiled_name 3))
  /\ _make_final_rowindex (filter_node true None mask)
       (view_engine 3 (from_slice 5 3 1)) PyNotImplemented
     = Ok (PyRI (uplift (inverse (from_column mask) 3) (from_slice 5 3 1))).
Proof.
  split.
  - apply (proj2 (proj1 (filter_expr_final_rowindex (core := Reference.core)
                           false (Some compiled_name) mask (llvm_engine 3))
                    eq_refl compiled_name eq_refl)).
  - apply (proj2 (filter_expr_final_rowindex (core := Reference.core)
                    true None mask (view_engine 3 (from_slice 5 3 1)))
             eq_refl mask (Some (from_slice 5 3 1)) eq_refl eq_refl
             (fun _ _ => eq_refl)).
Defined.

(** An integer column holding the value 10, on 10 rows. *)
Lemma integer_column_bounds_witness :
  exists e,
    _make_source_rowindex (core := Reference.core)
      (mkNode false
         (IntegerColumn (mkFrame 3 [mkColumn ltype_int [1; 10; 2]])))
      (engine 10)
    = Raise e.
Proof.
  assert (Hmax : is_max_of
                   (@ri_max Reference.core
                      (rowindex_from_column (mkColumn ltype_int [1; 10; 2])))
                   (col_values (mkColumn ltype_int [1; 10; 2]))).
  { split; [ cbn; auto | ]. intros v Hv. cbn in Hv. cbn. lia. }
  apply (proj1 (proj1 (proj2
           (integer_column_bounds (core := Reference.core) (engine 10) false
              false (mkFrame 3 [mkColumn ltype_int [1; 10; 2]])
              (mkColumn ltype_int [1; 10; 2]) eq_refl eq_refl Hmax)))).
  exists 10. split; [ right; left; reflexivity | cbn; lia ].
Defined.

(** A boolean array of shape (5, 1), and one of shape (1, 5), on 5 rows. *)
Lemma boolean_2d_array_rejected_witness :
  resolve (SNumpy (mkArray [5; 1] "bool" [1; 0; 1; 0; 1])) (engine 5) false
  = (Raise (TValueError (MsgBoolArrayLength 1 5)), engine 5)
  /\ resolve (SNumpy (mkArray [1; 5] "bool" [1; 0; 1; 0; 1])) (engine 5) false
     = (Raise (TValueError (MsgBoolArrayLength 1 5)), engine 5).
Proof.
  apply (boolean_2d_array_rejected (core := Reference.core) (engine 5) false 5
           [1; 0; 1; 0; 1] ltac:(lia) eq_refl).
Defined.

(** The selection by an integer column holding 10, on 10 rows, raises and
    leaves the final-index slot as it was. *)
Lemma error_leaves_final_slot_witness :
  select_rows (core := Reference.core)
    (SFrame (mkFrame 3 [mkColumn ltype_int [1; 10; 2]])) (engine 10)
  = (Raise (ValueError (MsgIndexNotAllowed 10 10)), engine 10)
  /\ final_slot
       (snd (select_rows (core := Reference.core)
               (SFrame (mkFrame 3 [mkColumn ltype_int [1; 10; 2]]))
               (engine 10)))
     = final_slot (engine 10).
Proof.
  split; [ reflexivity | ].
  apply (proj2 (proj2 (error_leaves_final_slot (core := Reference.core)
                         (engine 10)
                         (snd (select_rows (core := Reference.core)
                                 (SFrame (mkFrame 3
                                            [mkColumn ltype_int [1; 10; 2]]))
                                 (engine 10)))
                         (ValueError (MsgIndexNotAllowed 10 10))))
           (SFrame (mkFrame 3 [mkColumn ltype_int [1; 10; 2]]))).
  reflexivity.
Defined.

End Scenarios.

(* ================================================================== *)
(** ** Further properties of the loop over the elements *)

Section ElementLoop.
Context {core : Core}.

Local Abbreviation EE := (EvaluationEngine RowIndex).

Lemma add_elem_int_ok (fg : bool) (nrows i z : Z) (acc : accum) :
  - nrows <= z < nrows ->
  add_elem fg nrows i (EInt z) acc
  = Ok (mkAccum (bases acc ++ [z mod nrows]) (counts acc) (steps acc)).
Proof.
  intros H. cbn [add_elem].
  replace ((- nrows <=? z) && (z <? nrows)) with true; [ reflexivity | ].
  symmetry. apply andb_true_iff. split; [ apply Z.leb_le | apply Z.ltb_lt ]; lia.
Qed.

Lemma add_elem_int_bad (fg : bool) (nrows i z : Z) (acc : accum) :
  ~ (- nrows <= z < nrows) ->
  add_elem fg nrows i (EInt z) acc = Raise (TValueError (MsgRowInvalid z nrows)).
Proof.
  intros H. cbn [add_elem].
  destruct (Z.leb_spec (- nrows) z); destruct (Z.ltb_spec z nrows);
    cbn [andb]; try reflexivity. lia.
Qed.

Lemma scan_rows_ints (fg : bool) (nrows : Z) (es : list Z) :
  forall (i : Z) (acc : accum),
    Forall (fun z => - nrows <= z < nrows) es ->
    scan_rows fg nrows i (map EInt es) acc
    = Ok (mkAccum (bases acc ++ map (fun z => z mod nrows) es)
                  (counts acc) (steps acc)).
Proof.
  induction es as [ | z rest IH]; intros i acc Hall; cbn [map scan_rows].
  - rewrite app_nil_r. now destruct acc.
  - inversion Hall as [ | z' l' Hz Hrest]; subst.
    rewrite add_elem_int_ok by exact Hz. cbn [bind].
    rewrite IH by exact Hrest. cbn [bases counts steps].
    now rewrite <- app_assoc.
Qed.

(** The elements before the first failing one do not matter for the error
    that is raised. *)
Lemma scan_rows_first_error (fg : bool) (nrows i : Z) (pre rest : list elem)
    (e : elem) (acc acc1 : accum) (x : exn) :
  scan_rows fg nrows i pre acc = Ok acc1 ->
  add_elem fg nrows (i + Z.of_nat (length pre)) e acc1 = Raise x ->
  scan_rows fg nrows i (pre ++ e :: rest) acc = Raise x.
Proof.
  intros Hpre He. rewrite scan_rows_app, Hpre. cbn [bind scan_rows].
  now rewrite He.
Qed.

(** Whether an element is accepted, and what it adds, depends neither on its
    position nor on the selector being a generator. *)
Lemma add_elem_success_indep (fg fg' : bool) (nrows i i' : Z) (e : elem)
    (acc acc1 : accum) :
  add_elem fg nrows i e acc = Ok acc1 ->
  add_elem fg' nrows i' e acc = Ok acc1.
Proof.
  destruct e; cbn [add_elem]; try (intros H; exact H).
  destruct fg; discriminate.
Qed.

Lemma scan_rows_success_indep (fg fg' : bool) (nrows : Z) (rows : list elem) :
  forall (i i' : Z) (acc acc1 : accum),
    scan_rows fg nrows i rows acc = Ok acc1 ->
    scan_rows fg' nrows i' rows acc = Ok acc1.
Proof.
  induction rows as [ | e rest IH]; intros i i' acc acc1; cbn [scan_rows].
  - intros H; exact H.
  - destruct (add_elem fg nrows i e acc) as [acc2 | x] eqn:He; cbn [bind];
      [ | discriminate ].
    rewrite (add_elem_success_indep fg fg' nrows i i' e acc acc2 He).
    cbn [bind]. apply IH.
Qed.

(** Replacing an element by one that the loop treats alike. *)
Lemma scan_rows_replace (fg : bool) (nrows : Z) (pre post : list elem)
    (e1 e2 : elem) :
  (forall i acc, add_elem fg nrows i e1 acc = add_elem fg nrows i e2 acc) ->
  forall (i : Z) (acc : accum),
    scan_rows fg nrows i (pre ++ e1 :: post) acc
    = scan_rows fg nrows i (pre ++ e2 :: post) acc.
Proof.
  intros Heq i acc. rewrite !scan_rows_app.
  destruct (scan_rows fg nrows i pre acc) as [acc1 | x]; cbn [bind scan_rows];
    [ | reflexivity ].
  now rewrite Heq.
Qed.

(** X1.  A list of two or more integers (or of none), each within
    [-nrows, nrows), is resolved to the Array node that carries the integers
    taken modulo nrows, in the order given and with repetitions kept; every
    position of the array lies in [0, nrows). *)
Theorem integer_list_is_Array (ee : EE) (nested : bool) (es : list Z) :
  Forall (fun z => - dt_nrows ee <= z < dt_nrows ee) es ->
  length es <> 1%nat ->
  make_rowfilter (SList (map EInt es)) ee nested
  = (Ok (mkNode false (Array (map (fun z => z mod dt_nrows ee) es))), ee)
  /\ Forall (fun p => 0 <= p < dt_nrows ee)
            (map (fun z => z mod dt_nrows ee) es).
Proof.
  intros Hall Hlen. split.
  - cbn [make_rowfilter]. f_equal. unfold rowfilter_of_list.
    rewrite scan_rows_ints by exact Hall.
    cbn [bind empty_accum bases counts steps app]. unfold choose_node.
    cbn [bases counts].
    destruct es as [ | a [ | b l]]; cbn [map length] in *;
      [ reflexivity | congruence | reflexivity ].
  - apply Forall_map. eapply Forall_impl; [ | exact Hall ].
    cbn. intros z Hz. apply Z.mod_pos_bound. lia.
Qed.

(** X2.  When the elements before it are accepted, an integer outside
    [-nrows, nrows) makes the factory raise the value error that carries
    this integer and the row count, whatever follows it in the selector and
    whether the selector is a list or a generator. *)
Theorem out_of_range_integer_rejected (ee : EE) (nested : bool)
    (pre rest : list elem) (z : Z) (acc : accum) :
  scan_rows false (dt_nrows ee) 0 pre empty_accum = Ok acc ->
  ~ (- dt_nrows ee <= z < dt_nrows ee) ->
  make_rowfilter (SList (pre ++ EInt z :: rest)) ee nested
  = (Raise (TValueError (MsgRowInvalid z (dt_nrows ee))), ee)
  /\ make_rowfilter (SGenerator (pre ++ EInt z :: rest)) ee nested
     = (Raise (TValueError (MsgRowInvalid z (dt_nrows ee))), ee).
Proof.
  intros Hpre Hz.
  split; cbn [make_rowfilter]; f_equal; unfold rowfilter_of_list.
  - rewrite (scan_rows_first_error false _ 0 pre rest (EInt z) _ acc
               (TValueError (MsgRowInvalid z (dt_nrows ee))) Hpre);
      [ reflexivity | now apply add_elem_int_bad ].
  - rewrite (scan_rows_first_error true _ 0 pre rest (EInt z) _ acc
               (TValueError (MsgRowInvalid z (dt_nrows ee))));
      [ reflexivity
      | exact (scan_rows_success_indep false true _ pre 0 0 _ _ Hpre)
      | now apply add_elem_int_bad ].
Qed.

(** X3.  On a Frame without rows every integer selector is refused: no
    integer lies in [-0, 0). *)
Theorem integer_on_empty_frame_rejected (ee : EE) (nested : bool) (z : Z) :
  dt_nrows ee = 0 ->
  make_rowfilter (SInt z) ee nested
  = (Raise (TValueError (MsgRowInvalid z 0)), ee).
Proof.
  intros H0. cbn [make_rowfilter]. f_equal. unfold rowfilter_of_list.
  cbn [scan_rows]. rewrite add_elem_int_bad by lia. now rewrite H0.
Qed.

(** X4.  When the elements before it are accepted, an element that is
    neither an integer, a slice nor a range makes the factory raise a value
    error that carries the position of this element in the selector; the
    wording is the one for lists when the selector is a list, a tuple or a
    set, and the one for generated values when it is a generator. *)
Theorem invalid_element_position (ee : EE) (nested : bool)
    (pre rest : list elem) (acc : accum) :
  scan_rows false (dt_nrows ee) 0 pre empty_accum = Ok acc ->
  make_rowfilter (SList (pre ++ EOther :: rest)) ee nested
  = (Raise (TValueError (MsgInvalidElement EOther (Z.of_nat (length pre)))), ee)
  /\ make_rowfilter (SGenerator (pre ++ EOther :: rest)) ee nested
     = (Raise (TValueError (MsgInvalidGenerated EOther (Z.of_nat (length pre)))),
        ee).
Proof.
  intros Hpre.
  split; cbn [make_rowfilter]; f_equal; unfold rowfilter_of_list.
  - rewrite (scan_rows_first_error false _ 0 pre rest EOther _ acc
               (TValueError (MsgInvalidElement EOther (Z.of_nat (length pre))))
               Hpre); reflexivity.
  - rewrite (scan_rows_first_error true _ 0 pre rest EOther _ acc
               (TValueError
                  (MsgInvalidGenerated EOther (Z.of_nat (length pre)))));
      [ reflexivity
      | exact (scan_rows_success_indep false true _ pre 0 0 _ _ Hpre)
      | reflexivity ].
Qed.

Lemma scan_rows_generator_cases (nrows : Z) (rows : list elem) :
  forall (i : Z) (acc : accum),
    scan_rows true nrows i rows acc = scan_rows false nrows i rows acc
    \/ exists j,
         scan_rows false nrows i rows acc
         = Raise (TValueError (MsgInvalidElement EOther j))
         /\ scan_rows true nrows i rows acc
            = Raise (TValueError (MsgInvalidGenerated EOther j)).
Proof.
  induction rows as [ | e rest IH]; intros i acc; cbn [scan_rows].
  - now left.
  - destruct e as [z | a b c | a b c | ].
    + change (add_elem true nrows i (EInt z) acc)
        with (add_elem false nrows i (EInt z) acc).
      destruct (add_elem false nrows i (EInt z) acc); cbn [bind];
        [ apply IH | now left ].
    + change (add_elem true nrows i (ESlice a b c) acc)
        with (add_elem false nrows i (ESlice a b c) acc).
      destruct (add_elem false nrows i (ESlice a b c) acc); cbn [bind];
        [ apply IH | now left ].
    + change (add_elem true nrows i (ERange a b c) acc)
        with (add_elem false nrows i (ERange a b c) acc).
      destruct (add_elem false nrows i (ERange a b c) acc); cbn [bind];
        [ apply IH | now left ].
    + right. exists i. split; reflexivity.
Qed.

(** X5.  A generator is resolved like the list of the values it yields: to
    the same node, or with the same exception, except that an element of a
    wrong type is reported with the wording for generated values instead of
    the wording for lists (at the same position). *)
Theorem generator_resolves_like_list (ee : EE) (nested : bool)
    (items : list elem) :
  make_rowfilter (SGenerator items) ee nested
  = make_rowfilter (SList items) ee nested
  \/ exists j,
       make_rowfilter (SList items) ee nested
       = (Raise (TValueError (MsgInvalidElement EOther j)), ee)
       /\ make_rowfilter (SGenerator items) ee nested
          = (Raise (TValueError (MsgInvalidGenerated EOther j)), ee).
Proof.
  cbn [make_rowfilter]. unfold rowfilter_of_list.
  destruct (scan_rows_generator_cases (dt_nrows ee) items 0 empty_accum)
    as [Heq | [j [Hl Hg]]].
  - left. now rewrite Heq.
  - right. exists j. rewrite Hl, Hg. split; reflexivity.
Qed.

(** X6.  Anywhere in a list selector, a negative integer z with
    -nrows <= z < 0 stands for the row z + nrows: replacing it by z + nrows
    leaves the outcome of the factory unchanged. *)
Theorem negative_index_wraps (ee : EE) (nested : bool) (pre post : list elem)
    (z : Z) :
  - dt_nrows ee <= z < 0 ->
  make_rowfilter (SList (pre ++ EInt z :: post)) ee nested
  = make_rowfilter (SList (pre ++ EInt (z + dt_nrows ee) :: post)) ee nested.
Proof.
  intros Hz. cbn [make_rowfilter]. f_equal. unfold rowfilter_of_list.
  rewrite (scan_rows_replace false (dt_nrows ee) pre post (EInt z)
             (EInt (z + dt_nrows ee))); [ reflexivity | ].
  intros i acc. rewrite !add_elem_int_ok by lia.
  replace (z + dt_nrows ee) with (z + 1 * dt_nrows ee) by lia.
  now rewrite Z_mod_plus_full.
Qed.

(** X7.  Anywhere in a list selector, a slice or a range that is normalized
    to a single row b of the Frame (count 1) is treated like the integer b:
    its step is dropped. *)
Theorem single_row_slice_is_integer (ee : EE) (nested : bool)
    (pre post : list elem) (e : elem) (b s : Z) :
  normalized (dt_nrows ee) e = Some (b, 1, s) ->
  0 <= b < dt_nrows ee ->
  make_rowfilter (SList (pre ++ e :: post)) ee nested
  = make_rowfilter (SList (pre ++ EInt b :: post)) ee nested.
Proof.
  intros Hnorm Hb. cbn [make_rowfilter]. f_equal. unfold rowfilter_of_list.
  rewrite (scan_rows_replace false (dt_nrows ee) pre post e (EInt b));
    [ reflexivity | ].
  intros i acc. rewrite (add_elem_normalized _ _ _ _ _ _ Hnorm).
  rewrite add_elem_int_ok by lia. rewrite Z.mod_small by lia. reflexivity.
Qed.

Lemma scan_rows_skip_no_rows (fg : bool) (nrows : Z) (pre post : list elem)
    (e : elem) (acc : accum) :
  no_rows nrows e = true ->
  scan_rows fg nrows 0 (pre ++ e :: post) empty_accum = Ok acc
  <-> scan_rows fg nrows 0 (pre ++ post) empty_accum = Ok acc.
Proof.
  intros He. rewrite !scan_rows_app.
  destruct (scan_rows fg nrows 0 pre empty_accum) as [acc1 | x];
    cbn [bind scan_rows]; [ | tauto ].
  rewrite add_elem_no_rows by exact He. cbn [bind].
  split; apply scan_rows_success_indep.
Qed.

(** X8.  A slice or a range of count 0 can be added to, or dropped from, a
    list selector at any place without changing the node the selector is
    resolved to. *)
Theorem zero_count_element_is_neutral (ee : EE) (nested : bool)
    (pre post : list elem) (e : elem) (node : RFNode) :
  no_rows (dt_nrows ee) e = true ->
  make_rowfilter (SList (pre ++ e :: post)) ee nested = (Ok node, ee)
  <-> make_rowfilter (SList (pre ++ post)) ee nested = (Ok node, ee).
Proof.
  intros He. cbn [make_rowfilter]. unfold rowfilter_of_list.
  pose proof (fun acc =>
                scan_rows_skip_no_rows false (dt_nrows ee) pre post e acc He)
    as Hskip.
  destruct (scan_rows false (dt_nrows ee) 0 (pre ++ e :: post) empty_accum)
    as [acc1 | x1] eqn:H1;
    destruct (scan_rows false (dt_nrows ee) 0 (pre ++ post) empty_accum)
      as [acc2 | x2] eqn:H2; cbn [bind].
  - assert (acc1 = acc2)
      by (pose proof (proj1 (Hskip acc1) eq_refl); congruence).
    subst. tauto.
  - pose proof (proj1 (Hskip acc1) eq_refl). discriminate.
  - pose proof (proj2 (Hskip acc2) eq_refl). discriminate.
  - split; intros [=].
Qed.

End ElementLoop.

(* ================================================================== *)
(** ** What the nodes built by the factory satisfy *)

Section FactoryNodes.
Context {core : Core}.

Local Abbreviation EE := (EvaluationEngine RowIndex).

Lemma empty_accum_counted : counted empty_accum.
Proof. split; [ constructor | now left ]. Qed.

Lemma repeat_ones (k : nat) : Forall (fun c => 1 <= c) (repeat 1 k).
Proof. induction k; cbn; constructor; (lia || assumption). Qed.

Lemma add_triple_counted (acc acc1 : accum) (res : Z * Z * Z) :
  counted acc -> add_triple acc res = Ok acc1 -> counted acc1.
Proof.
  destruct res as [[start count] step]. intros [Hall Hex]. unfold add_triple.
  destruct (Z.leb_spec 0 count) as [H0 | H0]; cbn [assert bind];
    [ | discriminate ].
  destruct (Z.eqb_spec count 0) as [-> | Hn0];
    [ intros [= <-]; now split | ].
  destruct (Z.eqb_spec count 1) as [-> | Hn1];
    [ intros [= <-]; now split | ].
  intros [= <-]. unfold counted. cbn [counts].
  split.
  - apply Forall_app. split; [ | constructor; [ lia | constructor ] ].
    destruct (len (counts acc) <? len (bases acc))%nat; [ | exact Hall ].
    apply Forall_app. split; [ exact Hall | apply repeat_ones ].
  - right. apply Exists_app. right. constructor. lia.
Qed.

Lemma add_elem_counted (fg : bool) (nrows i : Z) (e : elem)
    (acc acc1 : accum) :
  counted acc -> add_elem fg nrows i e acc = Ok acc1 -> counted acc1.
Proof.
  intros Hc. destruct e as [z | a b c | a b c | ]; cbn [add_elem].
  - destruct ((- nrows <=? z) && (z <? nrows)); [ | discriminate ].
    intros [= <-]. exact Hc.
  - destruct (none_or_int a && none_or_int b && none_or_int c);
      [ | discriminate ].
    destruct (normalize_slice _ _ _ _) as [r | x]; cbn [bind];
      [ | discriminate ].
    apply add_triple_counted, Hc.
  - destruct (normalize_range _ _ _ _) as [r | ]; [ | discriminate ].
    apply add_triple_counted, Hc.
  - destruct fg; discriminate.
Qed.

Lemma scan_rows_counted (fg : bool) (nrows : Z) (rows : list elem) :
  forall (i : Z) (acc acc1 : accum),
    counted acc -> scan_rows fg nrows i rows acc = Ok acc1 -> counted acc1.
Proof.
  induction rows as [ | e rest IH]; intros i acc acc1 Hc; cbn [scan_rows].
  - intros [= <-]. exact Hc.
  - destruct (add_elem fg nrows i e acc) as [acc2 | x] eqn:He; cbn [bind];
      [ | discriminate ].
    apply IH. eapply add_elem_counted; eassumption.
Qed.

Lemma SliceRFNode_inv (start count step : Z) (node : RFNode) :
  SliceRFNode start count step = Ok node ->
  node = mkNode false (Slice start count step)
  /\ 0 <= start /\ 0 <= count /\ 0 <= start + (count - 1) * step.
Proof.
  unfold SliceRFNode.
  destruct (Z.leb_spec 0 start); cbn [assert bind]; [ | discriminate ].
  destruct (Z.leb_spec 0 count); cbn [assert bind]; [ | discriminate ].
  destruct (Z.leb_spec 0 (start + (count - 1) * step)); cbn [assert bind];
    [ | discriminate ].
  intros [= <-]. auto.
Qed.

(** The node a list selector is resolved to, by the state of the
    accumulators at the end of the loop. *)
Lemma rowfilter_of_list_inv (fg : bool) (nrows : Z) (items : list elem)
    (node : RFNode) :
  rowfilter_of_list fg nrows items = Ok node ->
  exists acc,
    aligned acc /\ counted acc /\ choose_node nrows acc = Ok node.
Proof.
  unfold rowfilter_of_list.
  destruct (scan_rows fg nrows 0 items empty_accum) as [acc | x] eqn:Hs;
    cbn [bind]; [ | discriminate ].
  intros Hn. exists acc. split; [ | split ]; [ | | exact Hn ].
  - eapply scan_rows_aligned; [ apply empty_accum_aligned | exact Hs ].
  - eapply scan_rows_counted; [ apply empty_accum_counted | exact Hs ].
Qed.

Lemma rowfilter_of_frame_inv (ee : EE) (fr : Frame) (node : RFNode) :
  rowfilter_of_frame ee fr = Ok node ->
  node = mkNode false (BooleanColumn fr)
  \/ node = mkNode false (IntegerColumn fr).
Proof.
  unfold rowfilter_of_frame.
  destruct (negb (ncols fr =? 1)); [ discriminate | ].
  destruct (ltypes fr) as [ | t0 rest]; [ discriminate | ].
  destruct (ltype_eqb t0 ltype_bool).
  - destruct (negb (fr_nrows fr =? dt_nrows ee)); [ discriminate | ].
    unfold BooleanColumnRFNode.
    destruct (assert _); cbn [bind]; [ | discriminate ].
    intros [= <-]. now left.
  - destruct (ltype_eqb t0 ltype_int); [ | discriminate ].
    unfold IntegerColumnRFNode.
    destruct (assert _); cbn [bind]; [ | discriminate ].
    intros [= <-]. now right.
Qed.

Lemma FilterExprRFNode_inv (ee ee1 : EE) (expr : BaseExpr) (node : RFNode) :
  FilterExprRFNode ee expr = (Ok node, ee1) ->
  exists fnname, node = mkNode false (FilterExpr fnname expr).
Proof.
  unfold FilterExprRFNode.
  destruct (stype_is_bool8 (expr_stype expr)); [ | discriminate ].
  destruct (is_llvm ee); cbn; intros [= <- _]; eexists; reflexivity.
Qed.

(** Where a node of the factory comes from. *)
Lemma make_rowfilter_inv (rows : selector) :
  forall (ee ee1 : EE) (nested : bool) (node : RFNode),
    make_rowfilter rows ee nested = (Ok node, ee1) ->
    node = AllRFNode
    \/ (exists fg items, rowfilter_of_list fg (dt_nrows ee) items = Ok node)
    \/ (exists fr, rowfilter_of_frame ee fr = Ok node)
    \/ (exists expr, FilterExprRFNode ee expr = (Ok node, ee1)).
Proof.
  induction rows; intros ee ee1 nested node; cbn [make_rowfilter];
    try (intros [= <- _]; now left);
    try discriminate;
    try (intros [= H _]; right; left; eexists; eexists; exact H).
  - intros [= H _]. right; right; left.
    destruct (frame_of_array (dt_nrows ee) arr) as [fr | x]; cbn [bind] in H;
      [ | discriminate ].
    now exists fr.
  - intros [= H _]. right; right; left. now exists fr.
  - apply IHrows.
  - intros H. right; right; right. now exists expr.
  - destruct nested; discriminate.
Qed.

(** X9.  Every node the factory returns has its inversion flag unset. *)
Theorem factory_node_not_inverted (rows : selector) (ee ee1 : EE)
    (nested : bool) (node : RFNode) :
  make_rowfilter rows ee nested = (Ok node, ee1) ->
  _inverse node = false.
Proof.
  intros H. apply make_rowfilter_inv in H.
  destruct H as [-> | [[fg [items H]] | [[fr H] | [expr H]]]].
  - reflexivity.
  - apply rowfilter_of_list_inv in H. destruct H as [acc [_ [_ H]]].
    unfold choose_node in H.
    destruct (counts acc) as [ | c0 cs].
    + destruct (bases acc) as [ | b0 [ | b1 bs]];
        try (injection H as <-; reflexivity).
      destruct ((b0 =? 0) && (dt_nrows ee =? 1));
        [ injection H as <-; reflexivity | ].
      apply SliceRFNode_inv in H. destruct H as [-> _]. reflexivity.
    + destruct (bases acc) as [ | b0 [ | b1 bs]];
        try (injection H as <-; reflexivity).
      destruct (steps acc) as [ | s0 ss]; [ discriminate | ].
      destruct ((b0 =? 0) && (c0 =? dt_nrows ee) && (s0 =? 1));
        [ injection H as <-; reflexivity | ].
      apply SliceRFNode_inv in H. destruct H as [-> _]. reflexivity.
  - apply rowfilter_of_frame_inv in H. destruct H as [-> | ->]; reflexivity.
  - apply FilterExprRFNode_inv in H. destruct H as [fnname ->]. reflexivity.
Qed.

(** X10.  Every Slice node the factory returns has a start that is not
    negative, a count of at least 1 and a last position that is not
    negative: the factory never builds an empty Slice. *)
Theorem factory_Slice_invariant (rows : selector) (ee ee1 : EE)
    (nested : bool) (node : RFNode) (start count step : Z) :
  make_rowfilter rows ee nested = (Ok node, ee1) ->
  kind node = Slice start count step ->
  0 <= start /\ 1 <= count /\ 0 <= start + (count - 1) * step.
Proof.
  intros H Hk. apply make_rowfilter_inv in H.
  destruct H as [-> | [[fg [items H]] | [[fr H] | [expr H]]]].
  - discriminate.
  - apply rowfilter_of_list_inv in H.
    destruct H as [acc [_ [[Hall _] H]]]. unfold choose_node in H.
    destruct (counts acc) as [ | c0 cs].
    + destruct (bases acc) as [ | b0 [ | b1 bs]];
        try (injection H as <-; discriminate).
      destruct ((b0 =? 0) && (dt_nrows ee =? 1));
        [ injection H as <-; discriminate | ].
      apply SliceRFNode_inv in H. destruct H as [-> [H1 [H2 H3]]].
      injection Hk as <- <- <-. lia.
    + destruct (bases acc) as [ | b0 [ | b1 bs]];
        try (injection H as <-; discriminate).
      destruct (steps acc) as [ | s0 ss]; [ discriminate | ].
      destruct ((b0 =? 0) && (c0 =? dt_nrows ee) && (s0 =? 1));
        [ injection H as <-; discriminate | ].
      apply SliceRFNode_inv in H. destruct H as [-> [H1 [H2 H3]]].
      injection Hk as <- <- <-. inversion Hall; subst. lia.
  - apply rowfilter_of_frame_inv in H. destruct H as [-> | ->]; discriminate.
  - apply FilterExprRFNode_inv in H. destruct H as [fnname ->]. discriminate.
Qed.

(** X11.  Every MultiSlice node the factory returns has at least two bases;
    its [counts] and [steps] have the same length, which is at least 1 and
    at most the number of bases; every count is at least 1 and some count
    is greater than 1. *)
Theorem factory_MultiSlice_invariant (rows : selector) (ee ee1 : EE)
    (nested : bool) (node : RFNode) (bs cs ss : list Z) :
  make_rowfilter rows ee nested = (Ok node, ee1) ->
  kind node = MultiSlice bs cs ss ->
  (2 <= length bs)%nat
  /\ length cs = length ss
  /\ (1 <= length cs <= length bs)%nat
  /\ Forall (fun c => 1 <= c) cs
  /\ Exists (fun c => 1 < c) cs.
Proof.
  intros H Hk. apply make_rowfilter_inv in H.
  destruct H as [-> | [[fg [items H]] | [[fr H] | [expr H]]]].
  - discriminate.
  - apply rowfilter_of_list_inv in H.
    destruct H as [acc [[Hlen Hle] [[Hall Hex] H]]]. unfold choose_node in H.
    destruct (counts acc) as [ | c0 cs0] eqn:Hc.
    + destruct (bases acc) as [ | b0 [ | b1 bs0]];
        try (injection H as <-; discriminate).
      destruct ((b0 =? 0) && (dt_nrows ee =? 1));
        [ injection H as <-; discriminate | ].
      apply SliceRFNode_inv in H. destruct H as [-> _]. discriminate.
    + destruct (bases acc) as [ | b0 [ | b1 bs0]] eqn:Hb.
      * injection H as <-. injection Hk as <- <- <-. cbn in Hle. lia.
      * destruct (steps acc) as [ | s0 ss0]; [ discriminate | ].
        destruct ((b0 =? 0) && (c0 =? dt_nrows ee) && (s0 =? 1));
          [ injection H as <-; discriminate | ].
        apply SliceRFNode_inv in H. destruct H as [-> _]. discriminate.
      * injection H as <-. injection Hk as <- <- <-.
        destruct Hex as [Hex | Hex]; [ discriminate | ].
        cbn [length] in *. repeat split; try lia; assumption.
  - apply rowfilter_of_frame_inv in H. destruct H as [-> | ->]; discriminate.
  - apply FilterExprRFNode_inv in H. destruct H as [fnname ->]. discriminate.
Qed.

(** X12.  On a Frame without rows no list, tuple, set or generator is
    resolved to the All node: a selector of elements is All only when the
    Frame has at least one row. *)
Theorem list_selector_All_needs_rows (ee : EE) (nested : bool)
    (items : list elem) :
  dt_nrows ee <= 0 ->
  fst (make_rowfilter (SList items) ee nested) <> Ok AllRFNode
  /\ fst (make_rowfilter (STuple items) ee nested) <> Ok AllRFNode
  /\ fst (make_rowfilter (SSet items) ee nested) <> Ok AllRFNode
  /\ fst (make_rowfilter (SGenerator items) ee nested) <> Ok AllRFNode.
Proof.
  intros Hn.
  assert (Hlist : forall fg,
             rowfilter_of_list fg (dt_nrows ee) items <> Ok AllRFNode).
  { intros fg H. apply rowfilter_of_list_inv in H.
    destruct H as [acc [_ [[Hall _] H]]]. unfold choose_node in H.
    destruct (counts acc) as [ | c0 cs0].
    - destruct (bases acc) as [ | b0 [ | b1 bs0]]; try discriminate.
      destruct (Z.eqb_spec (dt_nrows ee) 1) as [H1 | H1]; [ lia | ].
      rewrite andb_false_r in H. now apply SliceRFNode_not_All in H.
    - destruct (bases acc) as [ | b0 [ | b1 bs0]]; try discriminate.
      destruct (steps acc) as [ | s0 ss0]; [ discriminate | ].
      inversion Hall; subst.
      destruct (Z.eqb_spec c0 (dt_nrows ee)) as [H1 | H1]; [ lia | ].
      rewrite andb_false_r in H. cbn [andb] in H.
      now apply SliceRFNode_not_All in H. }
  cbn [make_rowfilter fst]. repeat split; apply Hlist.
Qed.

End FactoryNodes.

(* ================================================================== *)
(** ** The engine across the factory and [execute] *)

Section EngineState.
Context {core : Core}.

Local Abbreviation EE := (EvaluationEngine RowIndex).

Lemma engine_eta (ee : EE) :
  mkEngine (dt_nrows ee) (dt_rowindex ee) (is_llvm ee) (rowindex ee)
           (source_slot ee) (final_slot ee) (var_counter ee) (nodes ee)
           (f_rowindex ee) = ee.
Proof. now destruct ee. Qed.

(** X13.  The factory calls itself on what a function selector returns, and
    the outcome is the one of resolving the returned value directly, except
    that a value of no accepted kind is reported as an unexpected result of
    the function instead of an unexpected argument. *)
Theorem callable_resolves_like_returned (rows : selector) (ee : EE) :
  make_rowfilter (SFunction rows) ee false = make_rowfilter rows ee false
  \/ (make_rowfilter rows ee false
      = (Raise (TTypeError MsgUnexpectedArgument), ee)
      /\ make_rowfilter (SFunction rows) ee false
         = (Raise (TTypeError MsgUnexpectedResult), ee)).
Proof.
  cbn [make_rowfilter]. destruct rows; try (left; reflexivity).
  right. split; reflexivity.
Qed.

(** X14.  Under an engine that does not compile, the factory leaves the
    engine exactly as it was, whatever the selector and the outcome. *)
Theorem factory_keeps_eager_engine (rows : selector) (ee : EE)
    (nested : bool) :
  is_llvm ee = false ->
  snd (make_rowfilter rows ee nested) = ee.
Proof.
  revert nested.
  induction rows; intros nested Heager; cbn [make_rowfilter snd];
    try reflexivity.
  - now apply IHrows.
  - unfold FilterExprRFNode. rewrite Heager.
    destruct (stype_is_bool8 (expr_stype expr)); reflexivity.
  - destruct nested; reflexivity.
Qed.

(** X15.  Under any engine the factory changes at most the counter of
    generated names and the list of registered nodes: the row count, the
    index of the Frame, the current index, the source and final slots and
    the index of the proxy [f] are as before. *)
Theorem factory_changes_only_registry (rows : selector) (ee : EE)
    (nested : bool) :
  snd (make_rowfilter rows ee nested)
  = mkEngine (dt_nrows ee) (dt_rowindex ee) (is_llvm ee) (rowindex ee)
             (source_slot ee) (final_slot ee)
             (var_counter (snd (make_rowfilter rows ee nested)))
             (nodes (snd (make_rowfilter rows ee nested)))
             (f_rowindex ee).
Proof.
  revert nested.
  induction rows; intros nested; cbn [make_rowfilter snd];
    try (symmetry; apply engine_eta).
  - apply IHrows.
  - unfold FilterExprRFNode.
    destruct (stype_is_bool8 (expr_stype expr));
      [ | symmetry; apply engine_eta ].
    destruct ee as [n t l r sl fl v ns fr]. cbn. destruct l; reflexivity.
  - destruct nested; symmetry; apply engine_eta.
Qed.

Lemma execute_unsorted (node : RFNode) (ee : EE) :
  match kind node with Sorted _ => False | _ => True end ->
  execute node ee
  = match _make_source_rowindex node ee with
    | Raise e => (Raise e, ee)
    | Ok srcri =>
        match _make_final_rowindex node (set_source_rowindex ee srcri) srcri
        with
        | Raise e => (Raise e, set_source_rowindex ee srcri)
        | Ok ri =>
            (Ok tt, store_final (set_source_rowindex ee srcri) ri
                      (dt_rowindex ee))
        end
    end.
Proof.
  unfold execute. destruct (kind node); intros H; try reflexivity.
  contradiction.
Qed.

(** X16.  When [execute] succeeds, one and the same index is written to the
    final slot, to the current index of the engine and to the proxy [f]; the
    source slot is written; the final slot records as target the index of
    the Frame (for a sorted node, the index of the sorted column); nothing
    else in the engine changes. *)
Theorem execute_publishes_one_index (node : RFNode) (ee ee1 : EE) :
  execute node ee = (Ok tt, ee1) ->
  exists (src ri : pyri RowIndex),
    ee1 = mkEngine (dt_nrows ee) (dt_rowindex ee) (is_llvm ee) ri (Some src)
            (Some (ri, match kind node with
                       | Sorted sortnode => sort_column_rowindex sortnode
                       | _ => dt_rowindex ee
                       end))
            (var_counter ee) (nodes ee) (Some ri).
Proof.
  destruct (kind node) eqn:Hk;
    try (rewrite execute_unsorted by (now rewrite Hk);
         destruct (_make_source_rowindex node ee) as [src | x];
           [ | discriminate ];
         destruct (_make_final_rowindex node _ src) as [ri | x];
           [ | discriminate ];
         intros [= <-]; exists src, ri; reflexivity).
  unfold execute. rewrite Hk.
  destruct (sort_make_rowindex sortnode) as [r | x]; [ | discriminate ].
  intros [= <-]. exists PyNotImplemented, (PyRI r). reflexivity.
Qed.

Lemma shared_rule_never_raises (node : RFNode) (ee : EE)
    (src : option RowIndex) :
  exists ri, RFNode_make_final_rowindex node ee (pyri_of_option src) = Ok ri.
Proof.
  unfold RFNode_make_final_rowindex.
  destruct src as [s | ]; cbn [pyri_of_option].
  - destruct (dt_rowindex ee) as [t | ]; [ destruct (ri_bool t) | ];
      eexists; reflexivity.
  - destruct (_inverse node); eexists; reflexivity.
Qed.

(** X17.  When [execute] raises: for a node that uses the rule of the base
    class, and for a sorted node, the engine is left exactly as it was; for
    a FilterExpr node the source slot has already been set to
    [NotImplemented], and nothing else has changed. *)
Theorem failed_execute_engine (node : RFNode) (ee ee1 : EE) (e : exn) :
  execute node ee = (Raise e, ee1) ->
  (uses_shared_rule node = true -> ee1 = ee)
  /\ (forall sortnode, kind node = Sorted sortnode -> ee1 = ee)
  /\ (forall fnname expr,
        kind node = FilterExpr fnname expr ->
        ee1 = set_source_rowindex ee PyNotImplemented).
Proof.
  intros H. split; [ | split ].
  - intros Hk. rewrite execute_unsorted in H
      by (unfold uses_shared_rule in Hk; destruct (kind node);
          (exact I || discriminate)).
    destruct (_make_source_rowindex node ee) as [srcri | x] eqn:Hs.
    + destruct (shared_rule_source node ee srcri Hk Hs) as [src ->].
      rewrite shared_rule_is_inherited in H by exact Hk.
      destruct (shared_rule_never_raises node
                  (set_source_rowindex ee (pyri_of_option src)) src)
        as [ri Hri].
      rewrite Hri in H. discriminate.
    + now injection H as _ <-.
  - intros sortnode Hk. unfold execute in H. rewrite Hk in H.
    destruct (sort_make_rowindex sortnode); [ discriminate | ].
    now injection H as _ <-.
  - intros fnname expr Hk. rewrite execute_unsorted in H by (now rewrite Hk).
    unfold _make_source_rowindex in H. rewrite Hk in H.
    destruct (_make_final_rowindex node _ PyNotImplemented);
      [ discriminate | ].
    now injection H as _ <-.
Qed.

Lemma source_rowindex_depends_on_nrows (node : RFNode) (ee ee1 : EE) :
  dt_nrows ee1 = dt_nrows ee ->
  _make_source_rowindex node ee1 = _make_source_rowindex node ee.
Proof.
  intros Hn. unfold _make_source_rowindex. now rewrite Hn.
Qed.

Lemma shared_rule_depends_on_frame (node : RFNode) (ee ee1 : EE)
    (ri_source : pyri RowIndex) :
  dt_nrows ee1 = dt_nrows ee ->
  dt_rowindex ee1 = dt_rowindex ee ->
  RFNode_make_final_rowindex node ee1 ri_source
  = RFNode_make_final_rowindex node ee ri_source.
Proof.
  intros Hn Hr. unfold RFNode_make_final_rowindex. now rewrite Hn, Hr.
Qed.

(** X18.  For a node that uses the rule of the base class, [execute] reads
    the row count and the index of the Frame only: executing the node a
    second time succeeds and leaves the engine as the first execution left
    it. *)
Theorem shared_rule_execute_idempotent (node : RFNode) (ee ee1 : EE) :
  uses_shared_rule node = true ->
  execute node ee = (Ok tt, ee1) ->
  execute node ee1 = (Ok tt, ee1).
Proof.
  intros Hk H.
  assert (Hns : match kind node with Sorted _ => False | _ => True end)
    by (unfold uses_shared_rule in Hk; destruct (kind node);
        (exact I || discriminate)).
  rewrite execute_unsorted in H |- * by exact Hns.
  destruct (_make_source_rowindex node ee) as [srcri | x] eqn:Hs;
    [ | discriminate ].
  rewrite shared_rule_is_inherited in H by exact Hk.
  destruct (RFNode_make_final_rowindex node _ srcri) as [ri | x] eqn:Hf;
    [ | discriminate ].
  injection H as <-.
  rewrite (source_rowindex_depends_on_nrows node ee) by reflexivity.
  rewrite Hs. rewrite shared_rule_is_inherited by exact Hk.
  rewrite (shared_rule_depends_on_frame node (set_source_rowindex ee srcri))
    by reflexivity.
  rewrite Hf. reflexivity.
Qed.

(** X19.  A sorted node ignores its inversion flag: executing the negated
    node gives the same outcome and the same engine.  When the sort gives
    an index, this index is the final index as it is, and the source slot is
    set to [NotImplemented]. *)
Theorem sorted_node_ignores_negation (node : RFNode) (ee : EE)
    (sortnode : SortNode RowIndex) :
  kind node = Sorted sortnode ->
  execute (negate node) ee = execute node ee
  /\ (forall r,
        sort_make_rowindex sortnode = Ok r ->
        fst (execute node ee) = Ok tt
        /\ final_slot (snd (execute node ee))
           = Some (PyRI r, sort_column_rowindex sortnode)
        /\ source_slot (snd (execute node ee)) = Some PyNotImplemented).
Proof.
  intros Hk. unfold execute. cbn [negate kind]. rewrite Hk.
  split; [ reflexivity | ].
  intros r Hr. rewrite Hr. cbn. repeat split.
Qed.

End EngineState.

(* ================================================================== *)
(** ** Arrays and Frames as selectors *)

Section ArraysAndFrames.
Context {core : Core}.

Local Abbreviation EE := (EvaluationEngine RowIndex).

(** X20.  A numpy array that has neither one dimension nor two dimensions
    the smaller of which is 1 is refused with the value error about its
    dimensions, before its dtype is looked at; this includes arrays without
    dimension, with three or more, and two-dimensional arrays with an empty
    axis. *)
Theorem array_dimensions_rejected (ee : EE) (nested : bool) (arr : ndarray) :
  length (arr_shape arr) <> 1%nat ->
  length (arr_shape arr) <> 2%nat \/ shape_min (arr_shape arr) <> 1 ->
  make_rowfilter (SNumpy arr) ee nested
  = (Raise (TValueError (MsgNumpyDimensions arr)), ee).
Proof.
  intros H1 H2. cbn [make_rowfilter]. f_equal. unfold frame_of_array.
  destruct (Nat.eqb_spec (length (arr_shape arr)) 1) as [E1 | _];
    [ contradiction | ].
  destruct (Nat.eqb_spec (length (arr_shape arr)) 2) as [E2 | _];
    cbn [orb andb negb bind]; [ | reflexivity ].
  destruct (Z.eqb_spec (shape_min (arr_shape arr)) 1) as [Em | _];
    cbn [negb bind]; [ | reflexivity ].
  destruct H2; contradiction.
Qed.

(** X21.  A one-dimensional numpy array whose dtype is not "bool" and does
    not begin with "int" (an unsigned or a floating-point array, for
    instance) is refused with the value error about its dtype, whatever its
    length. *)
Theorem array_dtype_rejected (ee : EE) (nested : bool) (n : Z)
    (dtype : string) (data : list Z) :
  String.eqb dtype "bool" = false ->
  String.prefix "int" dtype = false ->
  make_rowfilter (SNumpy (mkArray [n] dtype data)) ee nested
  = (Raise (TValueError (MsgNumpyDtype (mkArray [n] dtype data))), ee).
Proof.
  intros Hb Hi. cbn [make_rowfilter]. f_equal. unfold frame_of_array.
  cbn [arr_shape length Nat.eqb orb andb negb].
  unfold dtype_is_bool, dtype_is_int. cbn [arr_dtype].
  rewrite Hb, Hi. reflexivity.
Qed.

Lemma int_dtype_not_bool (dtype : string) :
  String.prefix "int" dtype = true -> String.eqb dtype "bool" = false.
Proof.
  destruct dtype as [ | a rest]; cbn [String.prefix]; [ discriminate | ].
  match goal with
  | |- context [Ascii.ascii_dec ?c a] =>
      destruct (Ascii.ascii_dec c a) as [<- | _];
        [ reflexivity | discriminate ]
  end.
Qed.

(** X22.  A one-dimensional numpy array whose dtype begins with "int" is
    resolved to an IntegerColumn node over a Frame of one integer column
    with as many rows as the array has elements; its length is not compared
    with the row count of the Frame being selected from. *)
Theorem integer_array_is_IntegerColumn (ee : EE) (nested : bool) (n : Z)
    (dtype : string) (data : list Z) :
  String.prefix "int" dtype = true ->
  make_rowfilter (SNumpy (mkArray [n] dtype data)) ee nested
  = (Ok (mkNode false
           (IntegerColumn (mkFrame n [mkColumn ltype_int data]))), ee).
Proof.
  intros Hi. pose proof (int_dtype_not_bool dtype Hi) as Hb.
  cbn [make_rowfilter]. f_equal. unfold frame_of_array.
  cbn [arr_shape length Nat.eqb orb andb negb].
  unfold Frame_of_numpy, dtype_is_bool, dtype_is_int. cbn [arr_dtype arr_shape].
  rewrite Hb, Hi. cbn [orb andb negb]. reflexivity.
Qed.

(** X23.  A Frame selector whose number of columns is not 1 (none, or
    several) is refused with the value error that carries the Frame; a Frame
    of one column whose type is neither boolean nor integer is refused with
    the type error that carries this type. *)
Theorem frame_selector_rejected (ee : EE) (nested : bool) (fr : Frame) :
  (ncols fr <> 1 ->
   make_rowfilter (SFrame fr) ee nested
   = (Raise (TValueError (MsgFrameNcols fr)), ee))
  /\ (forall col,
        fr_columns fr = [col] ->
        col_ltype col <> ltype_bool ->
        col_ltype col <> ltype_int ->
        make_rowfilter (SFrame fr) ee nested
        = (Raise (TTypeError (MsgFrameColumnType (col_ltype col))), ee)).
Proof.
  split.
  - intros Hn. cbn [make_rowfilter]. f_equal. unfold rowfilter_of_frame.
    destruct (Z.eqb_spec (ncols fr) 1); [ contradiction | reflexivity ].
  - intros col Hcols Hb Hi. cbn [make_rowfilter]. f_equal.
    unfold rowfilter_of_frame, ncols, ltypes. rewrite Hcols.
    cbn [length map Z.of_nat Pos.of_succ_nat Z.eqb Pos.eqb negb].
    destruct (col_ltype col); try reflexivity; congruence.
Qed.

(** X24.  A Frame of one boolean column, and a one-dimensional boolean
    numpy array, are resolved to a BooleanColumn node exactly when they have
    as many rows (elements) as the Frame being selected from; otherwise the
    factory raises a value error that carries both numbers. *)
Theorem boolean_mask_length_check (ee : EE) (nested : bool) :
  (forall fr col,
     fr_columns fr = [col] ->
     col_ltype col = ltype_bool ->
     (fr_nrows fr = dt_nrows ee
      /\ make_rowfilter (SFrame fr) ee nested
         = (Ok (mkNode false (BooleanColumn fr)), ee))
     \/ (fr_nrows fr <> dt_nrows ee
         /\ make_rowfilter (SFrame fr) ee nested
            = (Raise (TValueError (MsgMaskRows (fr_nrows fr) (dt_nrows ee))),
               ee)))
  /\ (forall n data,
        (n = dt_nrows ee
         /\ make_rowfilter (SNumpy (mkArray [n] "bool" data)) ee nested
            = (Ok (mkNode false
                     (BooleanColumn (mkFrame n [mkColumn ltype_bool data]))),
               ee))
        \/ (n <> dt_nrows ee
            /\ make_rowfilter (SNumpy (mkArray [n] "bool" data)) ee nested
               = (Raise (TValueError (MsgBoolArrayLength n (dt_nrows ee))),
                  ee))).
Proof.
  split.
  - intros fr col Hcols Htype.
    rewrite (boolean_frame_mask ee nested fr col Hcols Htype).
    destruct (Z.eqb_spec (fr_nrows fr) (dt_nrows ee)); [ left | right ];
      now split.
  - intros n data. rewrite boolean_flat_array.
    destruct (Z.eqb_spec n (dt_nrows ee)); [ left | right ]; now split.
Qed.

Lemma choose_node_kind (nrows : Z) (acc : accum) (node : RFNode) :
  choose_node nrows acc = Ok node ->
  match kind node with
  | All | Slice _ _ _ | Array _ | MultiSlice _ _ _ => True
  | _ => False
  end.
Proof.
  unfold choose_node.
  destruct (counts acc) as [ | c0 cs].
  - destruct (bases acc) as [ | b0 [ | b1 bs]];
      try (intros [= <-]; exact I).
    destruct ((b0 =? 0) && (nrows =? 1)); [ intros [= <-]; exact I | ].
    intros H. apply SliceRFNode_inv in H. destruct H as [-> _]. exact I.
  - destruct (bases acc) as [ | b0 [ | b1 bs]];
      try (intros [= <-]; exact I).
    destruct (steps acc) as [ | s0 ss]; [ discriminate | ].
    destruct ((b0 =? 0) && (c0 =? nrows) && (s0 =? 1));
      [ intros [= <-]; exact I | ].
    intros H. apply SliceRFNode_inv in H. destruct H as [-> _]. exact I.
Qed.

Lemma rowfilter_of_frame_one_column (ee : EE) (fr : Frame) (node : RFNode) :
  rowfilter_of_frame ee fr = Ok node -> exists col, fr_columns fr = [col].
Proof.
  unfold rowfilter_of_frame, ncols.
  destruct (fr_columns fr) as [ | col [ | col2 rest]]; cbn [length].
  - discriminate.
  - intros _. now exists col.
  - replace (Z.of_nat (S (S (length rest))) =? 1) with false; [ discriminate | ].
    symmetry. apply Z.eqb_neq. lia.
Qed.

(** X25.  A node the factory returns for a selector that is neither an
    integer column (or integer array) nor an expression cannot fail when it
    is executed, on any engine: for selections by integers, slices, ranges
    and boolean masks every error is raised by the factory. *)
Theorem factory_node_executes (rows : selector) (ee ee1 ee2 : EE)
    (nested : bool) (node : RFNode) :
  make_rowfilter rows ee nested = (Ok node, ee1) ->
  (forall coldt, kind node <> IntegerColumn coldt) ->
  (forall fnname expr, kind node <> FilterExpr fnname expr) ->
  fst (execute node ee2) = Ok tt.
Proof.
  intros H Hint Hexpr.
  assert (Hsrc : exists src : option RowIndex,
             uses_shared_rule node = true
             /\ _make_source_rowindex node ee2 = Ok (pyri_of_option src)).
  { apply make_rowfilter_inv in H.
    destruct H as [-> | [[fg [items H]] | [[fr H] | [expr H]]]].
    - now exists None.
    - apply rowfilter_of_list_inv in H. destruct H as [acc [_ [_ H]]].
      apply choose_node_kind in H.
      unfold uses_shared_rule, _make_source_rowindex.
      destruct (kind node); try contradiction;
        [ now exists None | eexists (Some _) .. ]; split; reflexivity.
    - destruct (rowfilter_of_frame_one_column ee fr node H) as [col Hcol].
      apply rowfilter_of_frame_inv in H. destruct H as [-> | ->].
      + exists (Some (rowindex_from_column col)). split; [ reflexivity | ].
        cbn [_make_source_rowindex kind]. unfold column0.
        now rewrite Hcol.
      + exfalso. now apply (Hint fr).
    - apply FilterExprRFNode_inv in H. destruct H as [fnname ->].
      exfalso. now apply (Hexpr fnname expr). }
  destruct Hsrc as [src [Hk Hs]].
  rewrite execute_unsorted
    by (unfold uses_shared_rule in Hk; destruct (kind node);
        (exact I || discriminate)).
  rewrite Hs, shared_rule_is_inherited by exact Hk.
  destruct (shared_rule_never_raises node
              (set_source_rowindex ee2 (pyri_of_option src)) src) as [ri Hri].
  rewrite Hri. reflexivity.
Qed.

Lemma strided_1_0 (l : list Z) : strided 1 0 l = l.
Proof. induction l as [ | x l IH]; cbn; [ reflexivity | now rewrite IH ]. Qed.

(** X26.  A two-dimensional numpy array of n >= 1 integers, as a column
    (n, 1) or as a row (1, n), is resolved to an IntegerColumn node over a
    Frame of n rows and one integer column: the row is transposed into a
    column, and no length is compared. *)
Theorem integer_2d_array_accepted (ee : EE) (nested : bool) (n : Z)
    (dtype : string) (data : list Z) :
  1 <= n ->
  String.prefix "int" dtype = true ->
  make_rowfilter (SNumpy (mkArray [n; 1] dtype data)) ee nested
  = (Ok (mkNode false
           (IntegerColumn (mkFrame n [mkColumn ltype_int data]))), ee)
  /\ make_rowfilter (SNumpy (mkArray [1; n] dtype data)) ee nested
     = (Ok (mkNode false
              (IntegerColumn (mkFrame n [mkColumn ltype_int data]))), ee).
Proof.
  intros Hn Hi. pose proof (int_dtype_not_bool dtype Hi) as Hb.
  assert (Hmin1 : Z.min n (Z.min 1 1) = 1) by lia.
  assert (Hmin2 : Z.min 1 (Z.min n n) = 1) by lia.
  assert (Hcol : forall m,
             m = n ->
             (rows1 <-
                (let rows := Frame_of_numpy (mkArray [m; 1] dtype data) in
                 _ <- assert (ncols rows =? 1) ;;
                 match ltypes rows with
                 | [] => Raise IndexError
                 | t0 :: _ =>
                     _ <- assert (ltype_eqb t0 ltype_bool
                                  || ltype_eqb t0 ltype_int) ;;
                     Ok rows
                 end) ;;
              rowfilter_of_frame ee rows1)
             = Ok (mkNode false
                     (IntegerColumn (mkFrame n [mkColumn ltype_int data])))).
  { intros m ->. unfold Frame_of_numpy, dtype_is_bool.
    cbn [arr_dtype arr_shape arr_data]. rewrite Hb.
    change (Z.to_nat 1) with 1%nat. cbn [seq map]. rewrite strided_1_0.
    reflexivity. }
  split; cbn [make_rowfilter]; f_equal; unfold frame_of_array;
    cbn [arr_shape length Nat.eqb orb andb negb shape_min list_min shape_1
         nth].
  - rewrite Hmin1. change (1 =? 1) with true. change (1 <? 1) with false.
    cbn [negb andb]. unfold dtype_is_bool, dtype_is_int. cbn [arr_dtype].
    rewrite Hb, Hi. cbn [orb andb negb]. now apply Hcol.
  - rewrite Hmin2. change (1 =? 1) with true. cbn [negb andb].
    destruct (Z.ltb_spec 1 n) as [Hlt | Hge].
    + unfold dtype_is_bool, dtype_is_int, arr_T.
      cbn [arr_dtype arr_shape arr_data rev app].
      rewrite Hb, Hi. cbn [orb andb negb]. now apply Hcol.
    + assert (n = 1) by lia. subst n.
      unfold dtype_is_bool, dtype_is_int. cbn [arr_dtype].
      rewrite Hb, Hi. cbn [orb andb negb]. now apply Hcol.
Qed.

End ArraysAndFrames.

(* ================================================================== *)
(** ** The further properties on concrete selectors *)

Section FurtherScenarios.
Import Reference.

Local Abbreviation resolve := (make_rowfilter (core := Reference.core)).
Local Abbreviation run := (execute (core := Reference.core)).
Local Abbreviation node_of k := (@mkNode Reference.core false k).
Local Abbreviation mask := (mkColumn ltype_bool [1; 0; 1]).
Local Abbreviation view10 := (view_engine 10 (from_slice 5 10 1)).
Local Abbreviation column_1_10_2 :=
  (mkFrame 3 [mkColumn ltype_int [1; 10; 2]]).
Local Abbreviation a_sort :=
  (@mkSortNode (@RowIndex Reference.core) (Some (from_slice 5 10 1))
     (Ok (from_array [2; 0; 1]))).

(** [[3, -1, 3]] on 10 rows. *)
Lemma integer_list_is_Array_witness :
  resolve (SList (map EInt [3; -1; 3])) (engine 10) false
  = (Ok (mkNode false (Array [3; 9; 3])), engine 10).
Proof.
  apply (integer_list_is_Array (core := Reference.core) (engine 10) false
           [3; -1; 3]).
  - repeat constructor; cbn; lia.
  - discriminate.
Defined.

(** [[0, 10, "a"]] on 10 rows: the row 10 is reported. *)
Lemma out_of_range_integer_rejected_witness :
  resolve (SList ([EInt 0] ++ EInt 10 :: [EOther])) (engine 10) false
  = (Raise (TValueError (MsgRowInvalid 10 10)), engine 10).
Proof.
  apply (out_of_range_integer_rejected (core := Reference.core) (engine 10)
           false [EInt 0] [EOther] 10 (mkAccum [0] [] [])).
  - reflexivity.
  - cbn; lia.
Defined.

(** The integer 0 on a Frame without rows. *)
Lemma integer_on_empty_frame_rejected_witness :
  resolve (SInt 0) (engine 0) false
  = (Raise (TValueError (MsgRowInvalid 0 0)), engine 0).
Proof.
  apply (integer_on_empty_frame_rejected (core := Reference.core) (engine 0)
           false 0).
  reflexivity.
Defined.

(** A generator yielding 0, [slice(2, 8, 2)] and then a string. *)
Lemma invalid_element_position_witness :
  resolve (SGenerator ([EInt 0; ESlice (AInt 2) (AInt 8) (AInt 2)]
                       ++ EOther :: []))
    (engine 10) false
  = (Raise (TValueError (MsgInvalidGenerated EOther 2)), engine 10).
Proof.
  apply (invalid_element_position (core := Reference.core) (engine 10) false
           [EInt 0; ESlice (AInt 2) (AInt 8) (AInt 2)] []
           (mkAccum [0; 2] [1; 3] [1; 2])).
  reflexivity.
Defined.

(** [[5, -1]] and [[5, 9]] on 10 rows. *)
Lemma negative_index_wraps_witness :
  resolve (SList ([EInt 5] ++ EInt (-1) :: [])) (engine 10) false
  = resolve (SList ([EInt 5] ++ EInt 9 :: [])) (engine 10) false.
Proof.
  apply (negative_index_wraps (core := Reference.core) (engine 10) false
           [EInt 5] [] (-1)).
  cbn; lia.
Defined.

(** [[slice(4, 5, 3), 7]] and [[4, 7]] on 10 rows. *)
Lemma single_row_slice_is_integer_witness :
  resolve (SList ([] ++ ESlice (AInt 4) (AInt 5) (AInt 3) :: [EInt 7]))
    (engine 10) false
  = resolve (SList ([] ++ EInt 4 :: [EInt 7])) (engine 10) false.
Proof.
  apply (single_row_slice_is_integer (core := Reference.core) (engine 10)
           false [] [EInt 7] (ESlice (AInt 4) (AInt 5) (AInt 3)) 4 3).
  - reflexivity.
  - cbn; lia.
Defined.

(** [[1, slice(0, 0, 1), 2]] is the Array of 1 and 2. *)
Lemma zero_count_element_is_neutral_witness :
  resolve (SList ([EInt 1] ++ ESlice (AInt 0) (AInt 0) (AInt 1) :: [EInt 2]))
    (engine 10) false
  = (Ok (mkNode false (Array [1; 2])), engine 10).
Proof.
  apply (proj2 (zero_count_element_is_neutral (core := Reference.core)
                  (engine 10) false [EInt 1] [EInt 2]
                  (ESlice (AInt 0) (AInt 0) (AInt 1))
                  (mkNode false (Array [1; 2]))
                  eq_refl)).
  reflexivity.
Defined.

(** The node of [[-1]]. *)
Lemma factory_node_not_inverted_witness :
  _inverse (node_of (Slice 9 1 1)) = false.
Proof.
  apply (factory_node_not_inverted (core := Reference.core)
           (SList [EInt (-1)]) (engine 10) (engine 10) false).
  reflexivity.
Defined.

(** The node of [slice(2, 8, 2)]. *)
Lemma factory_Slice_invariant_witness :
  0 <= 2 /\ 1 <= 3 /\ 0 <= 2 + (3 - 1) * 2.
Proof.
  apply (factory_Slice_invariant (core := Reference.core)
           (SSlice (AInt 2) (AInt 8) (AInt 2)) (engine 10) (engine 10) false
           (node_of (Slice 2 3 2)) 2 3 2).
  - reflexivity.
  - reflexivity.
Defined.

(** The node of [[0, 1, 2, 5, slice(7, 10, 1), 4]]: six bases, five counts. *)
Lemma factory_MultiSlice_invariant_witness :
  (2 <= length [0; 1; 2; 5; 7; 4]%Z)%nat
  /\ length [1; 1; 1; 1; 3] = length [1; 1; 1; 1; 1]
  /\ (1 <= length [1; 1; 1; 1; 3]%Z <= length [0; 1; 2; 5; 7; 4]%Z)%nat
  /\ Forall (fun c => 1 <= c) [1; 1; 1; 1; 3]
  /\ Exists (fun c => 1 < c) [1; 1; 1; 1; 3].
Proof.
  apply (factory_MultiSlice_invariant (core := Reference.core)
           (SList [EInt 0; EInt 1; EInt 2; EInt 5;
                   ESlice (AInt 7) (AInt 10) (AInt 1); EInt 4])
           (engine 10) (engine 10) false
           (node_of (MultiSlice [0; 1; 2; 5; 7; 4] [1; 1; 1; 1; 3]
                       [1; 1; 1; 1; 1]))).
  - reflexivity.
  - reflexivity.
Defined.

(** [[slice(None, None, None)]] on a Frame without rows. *)
Lemma list_selector_All_needs_rows_witness :
  fst (resolve (SList [ESlice ANone ANone ANone]) (engine 0) false)
  <> Ok AllRFNode.
Proof.
  apply (list_selector_All_needs_rows (core := Reference.core) (engine 0)
           false [ESlice ANone ANone ANone]).
  cbn; lia.
Defined.

(** An expression under the eager engine. *)
Lemma factory_keeps_eager_engine_witness :
  snd (resolve (@SExpr Reference.core mask) (engine 3) false) = engine 3.
Proof.
  apply (factory_keeps_eager_engine (core := Reference.core)
           (@SExpr Reference.core mask) (engine 3) false).
  reflexivity.
Defined.

(** The Slice node (2, 3, 2) executed on a view. *)
Lemma execute_publishes_one_index_witness :
  exists src ri,
    snd (run (node_of (Slice 2 3 2)) view10)
    = mkEngine 10 (Some (from_slice 5 10 1)) false ri (Some src)
        (Some (ri, Some (from_slice 5 10 1))) 0%nat [] (Some ri).
Proof.
  apply (execute_publishes_one_index (core := Reference.core)
           (node_of (Slice 2 3 2)) view10
           (snd (run (node_of (Slice 2 3 2)) view10))).
  reflexivity.
Defined.

(** An integer column holding 10 on 10 rows leaves the engine as it was; an
    expression whose compiled function is missing leaves the source slot
    set. *)
Lemma failed_execute_engine_witness :
  snd (run (node_of (IntegerColumn column_1_10_2)) (engine 10)) = engine 10
  /\ snd (run (node_of (@FilterExpr Reference.core None mask)) (llvm_engine 3))
     = set_source_rowindex (core := Reference.core) (llvm_engine 3)
         PyNotImplemented.
Proof.
  split.
  - apply (proj1 (failed_execute_engine (core := Reference.core)
                    (node_of (IntegerColumn column_1_10_2)) (engine 10)
                    (snd (run (node_of (IntegerColumn column_1_10_2))
                            (engine 10)))
                    (ValueError (MsgIndexNotAllowed 10 10)) eq_refl)).
    reflexivity.
  - apply (proj2 (proj2 (failed_execute_engine (core := Reference.core)
                    (node_of (@FilterExpr Reference.core None mask))
                    (llvm_engine 3)
                    (snd (run (node_of (@FilterExpr Reference.core None mask))
                            (llvm_engine 3)))
                    TypeError eq_refl)) None mask).
    reflexivity.
Defined.

(** The Slice node (2, 3, 2) executed twice on a view. *)
Lemma shared_rule_execute_idempotent_witness :
  run (node_of (Slice 2 3 2)) (snd (run (node_of (Slice 2 3 2)) view10))
  = (Ok tt, snd (run (node_of (Slice 2 3 2)) view10)).
Proof.
  apply (shared_rule_execute_idempotent (core := Reference.core)
           (node_of (Slice 2 3 2)) view10).
  - reflexivity.
  - reflexivity.
Defined.

(** A sorted node and its negation. *)
Lemma sorted_node_ignores_negation_witness :
  run (negate (node_of (@Sorted Reference.core a_sort))) view10
  = run (node_of (@Sorted Reference.core a_sort)) view10.
Proof.
  apply (proj1 (sorted_node_ignores_negation (core := Reference.core)
                  (node_of (@Sorted Reference.core a_sort)) view10 a_sort
                  eq_refl)).
Defined.

(** A boolean array of shape (2, 3), and one of shape (0, 1). *)
Lemma array_dimensions_rejected_witness :
  resolve (SNumpy (mkArray [2; 3] "bool" [1; 0; 1; 0; 1; 1])) (engine 3) false
  = (Raise (TValueError
              (MsgNumpyDimensions (mkArray [2; 3] "bool" [1; 0; 1; 0; 1; 1]))),
     engine 3)
  /\ resolve (SNumpy (mkArray [0; 1] "bool" [])) (engine 0) false
     = (Raise (TValueError (MsgNumpyDimensions (mkArray [0; 1] "bool" []))),
        engine 0).
Proof.
  split.
  - apply (array_dimensions_rejected (core := Reference.core) (engine 3) false
             (mkArray [2; 3] "bool" [1; 0; 1; 0; 1; 1])).
    + discriminate.
    + right. cbn; lia.
  - apply (array_dimensions_rejected (core := Reference.core) (engine 0) false
             (mkArray [0; 1] "bool" [])).
    + discriminate.
    + right. cbn; lia.
Defined.

(** An array of unsigned bytes. *)
Lemma array_dtype_rejected_witness :
  resolve (SNumpy (mkArray [3] "uint8" [0; 1; 2])) (engine 10) false
  = (Raise (TValueError (MsgNumpyDtype (mkArray [3] "uint8" [0; 1; 2]))),
     engine 10).
Proof.
  apply (array_dtype_rejected (core := Reference.core) (engine 10) false 3
           "uint8" [0; 1; 2]).
  - reflexivity.
  - reflexivity.
Defined.

(** Three 64-bit integers, on a Frame of 2 rows. *)
Lemma integer_array_is_IntegerColumn_witness :
  resolve (SNumpy (mkArray [3] "int64" [0; 1; 1])) (engine 2) false
  = (Ok (node_of (IntegerColumn (mkFrame 3 [mkColumn ltype_int [0; 1; 1]]))),
     engine 2).
Proof.
  apply (integer_array_is_IntegerColumn (core := Reference.core) (engine 2)
           false 3 "int64" [0; 1; 1]).
  reflexivity.
Defined.

(** The same as a row of shape (1, 3). *)
Lemma integer_2d_array_accepted_witness :
  resolve (SNumpy (mkArray [1; 3] "int32" [0; 1; 1])) (engine 2) false
  = (Ok (node_of (IntegerColumn (mkFrame 3 [mkColumn ltype_int [0; 1; 1]]))),
     engine 2).
Proof.
  apply (proj2 (integer_2d_array_accepted (core := Reference.core) (engine 2)
                  false 3 "int32" [0; 1; 1] ltac:(lia) eq_refl)).
Defined.

(** A Frame of two columns, a Frame without column, and a Frame of one
    string column. *)
Lemma frame_selector_rejected_witness :
  resolve (SFrame (mkFrame 3 [mask; mask])) (engine 3) false
  = (Raise (TValueError (MsgFrameNcols (mkFrame 3 [mask; mask]))), engine 3)
  /\ resolve (SFrame (mkFrame 0 [])) (engine 3) false
     = (Raise (TValueError (MsgFrameNcols (mkFrame 0 []))), engine 3)
  /\ resolve (SFrame (mkFrame 3 [mkColumn ltype_str [0; 0; 0]])) (engine 3)
       false
     = (Raise (TTypeError (MsgFrameColumnType ltype_str)), engine 3).
Proof.
  split; [ | split ].
  - apply (proj1 (frame_selector_rejected (core := Reference.core) (engine 3)
                    false (mkFrame 3 [mask; mask]))).
    cbn; lia.
  - apply (proj1 (frame_selector_rejected (core := Reference.core) (engine 3)
                    false (mkFrame 0 []))).
    cbn; lia.
  - apply (proj2 (frame_selector_rejected (core := Reference.core) (engine 3)
                    false (mkFrame 3 [mkColumn ltype_str [0; 0; 0]]))
             (mkColumn ltype_str [0; 0; 0])).
    + reflexivity.
    + discriminate.
    + discriminate.
Defined.

(** A boolean column of 3 rows, on a Frame of 3 rows and on one of 4. *)
Lemma boolean_mask_length_check_witness :
  ((fr_nrows (mkFrame 3 [mask]) = dt_nrows (engine 3)
    /\ resolve (SFrame (mkFrame 3 [mask])) (engine 3) false
       = (Ok (node_of (BooleanColumn (mkFrame 3 [mask]))), engine 3))
   \/ (fr_nrows (mkFrame 3 [mask]) <> dt_nrows (engine 3)
       /\ resolve (SFrame (mkFrame 3 [mask])) (engine 3) false
          = (Raise (TValueError (MsgMaskRows 3 3)), engine 3)))
  /\ ((fr_nrows (mkFrame 3 [mask]) = dt_nrows (engine 4)
       /\ resolve (SFrame (mkFrame 3 [mask])) (engine 4) false
          = (Ok (node_of (BooleanColumn (mkFrame 3 [mask]))), engine 4))
      \/ (fr_nrows (mkFrame 3 [mask]) <> dt_nrows (engine 4)
          /\ resolve (SFrame (mkFrame 3 [mask])) (engine 4) false
             = (Raise (TValueError (MsgMaskRows 3 4)), engine 4))).
Proof.
  split.
  - apply (proj1 (boolean_mask_length_check (core := Reference.core)
                    (engine 3) false) (mkFrame 3 [mask]) mask eq_refl eq_refl).
  - apply (proj1 (boolean_mask_length_check (core := Reference.core)
                    (engine 4) false) (mkFrame 3 [mask]) mask eq_refl eq_refl).
Defined.

(** The node of [slice(2, 8, 2)], executed on a view. *)
Lemma factory_node_executes_witness :
  fst (run (node_of (Slice 2 3 2)) view10) = Ok tt.
Proof.
  apply (factory_node_executes (core := Reference.core)
           (SSlice (AInt 2) (AInt 8) (AInt 2)) (engine 10) (engine 10) view10
           false (node_of (Slice 2 3 2))).
  - reflexivity.
  - intros coldt. discriminate.
  - intros fnname expr. discriminate.
Defined.

End FurtherScenarios.
